(** * kid-timer: the timer store, its synchronisation bridge and the display law

    A shallow embedding of the Redux Zero store of the kid-timer application
    ([store/index.ts], [store/actions.ts], [store/pubnub-integration.tsx]), of
    the display arithmetic of [timer.tsx], and of the sync and auto-stop
    effects of the component that preceded the store.

    Conventions of the embedding.
    - A JavaScript [number] that holds a duration or an epoch timestamp in
      milliseconds is an integer of [Z] (the values are produced by
      [Date.now()] and by integer arithmetic on it, far below 2^53).
    - [number | null] fields ([startTime], [endTime]) are [option Z], with
      [None] for [null]; the optional field [pausedRemainingMs?: number] is
      [option Z] with [None] for [undefined].  On the wire the same field may
      also be [null], hence the three-valued [wire_num].
    - [Date.now()] is an explicit argument [now] of every action that reads
      the clock.
    - JavaScript truthiness of a nullable number is [truthy]: [null] and [0]
      are both falsy. *)

From Stdlib Require Import ZArith Bool List String Lia QArith Qround.
From Stdlib Require Import Ascii Decimal DecimalString DecimalZ.
Import ListNotations.
Open Scope Z_scope.

(** ** Data model ([store/index.ts]) *)

Record TimerState := mkTimer {
  durationMs : Z;
  startTime : option Z;
  endTime : option Z;
  isRunning : bool;
  pausedRemainingMs : option Z;
  lastUpdated : Z;
  isComplete : bool;
  isPaused : bool
}.

Record UiState := mkUi {
  isConnected : bool;
  currentTime : Z;
  lastUpdateFromPubNub : bool
}.

Record AppState := mkApp {
  timer : TimerState;
  ui : UiState
}.

(** A nullable, possibly missing number of a channel message. *)
Inductive wire_num : Type :=
| WUndefined
| WNull
| WNum (z : Z).

(** The message exchanged over the channel: the raw fields of the timer. *)
Record Snapshot := mkSnapshot {
  msg_durationMs : Z;
  msg_startTime : option Z;
  msg_endTime : option Z;
  msg_isRunning : bool;
  msg_pausedRemainingMs : wire_num;
  msg_lastUpdated : Z
}.

(** [initialState]: the two calls of [Date.now()] are the two arguments. *)
Definition initialState (created shown : Z) : AppState :=
  mkApp (mkTimer (5 * 60 * 1000) None None false None created false false)
        (mkUi false shown false).

(** ** JavaScript helpers *)

(** Truthiness of a [number | null]. *)
Definition truthy (v : option Z) : bool :=
  match v with
  | Some z => negb (z =? 0)
  | None => false
  end.

(** [endTime && now >= endTime]: the comparison is evaluated only for a
    truthy [endTime]. *)
Definition reached (now : Z) (endTime : option Z) : bool :=
  match endTime with
  | Some e => negb (e =? 0) && (e <=? now)
  | None => false
  end.

(** [v !== undefined] for the optional field. *)
Definition defined (v : option Z) : bool :=
  match v with
  | Some _ => true
  | None => false
  end.

(** ** Actions ([store/actions.ts]) *)

Definition calculateComputedState (t : TimerState) (currentTime : Z) : TimerState :=
  let isComplete' :=
    negb (isRunning t) && truthy (startTime t) && reached currentTime (endTime t) in
  let isPaused' := negb (isRunning t) && defined (pausedRemainingMs t) in
  mkTimer (durationMs t) (startTime t) (endTime t) (isRunning t)
          (pausedRemainingMs t) (lastUpdated t) isComplete' isPaused'.

Definition withTimer (state : AppState) (t : TimerState) : AppState :=
  mkApp t (ui state).

Definition startTimer (now : Z) (state : AppState) : AppState :=
  let t := timer state in
  let timeToRun :=
    match pausedRemainingMs t with
    | Some p => if negb (isRunning t) then p else durationMs t
    | None => durationMs t
    end in
  let newStartTime := now in
  let newEndTime := now + timeToRun in
  withTimer state
    (calculateComputedState
       (mkTimer (durationMs t) (Some newStartTime) (Some newEndTime) true None now
                (isComplete t) (isPaused t))
       (currentTime (ui state))).

Definition pauseTimer (now : Z) (state : AppState) : AppState :=
  let t := timer state in
  let remainingMs :=
    match endTime t with
    | Some e => if isRunning t && negb (e =? 0) then Z.max 0 (e - now) else durationMs t
    | None => durationMs t
    end in
  withTimer state
    (calculateComputedState
       (mkTimer (durationMs t) None None false (Some remainingMs) now
                (isComplete t) (isPaused t))
       (currentTime (ui state))).

(** [resetTimer (state, initialMinutes = 5)]: [None] is the omitted argument. *)
Definition resetTimer (now : Z) (initialMinutes : option Z) (state : AppState) : AppState :=
  let minutes := match initialMinutes with Some m => m | None => 5 end in
  let initialDurationMs := minutes * 60 * 1000 in
  withTimer state
    (mkTimer initialDurationMs None None false None now false false).

Definition addTime (now : Z) (minutes : Z) (state : AppState) : AppState :=
  let t := timer state in
  let additionalMs := minutes * 60 * 1000 in
  let newDurationMs := durationMs t + additionalMs in
  let newTimer :=
    if isRunning t && truthy (startTime t) && truthy (endTime t) then
      mkTimer newDurationMs (startTime t)
              (option_map (fun e => e + additionalMs) (endTime t))
              (isRunning t) (pausedRemainingMs t) now (isComplete t) (isPaused t)
    else if isComplete t then
      mkTimer newDurationMs None None false None now (isComplete t) (isPaused t)
    else
      mkTimer newDurationMs (startTime t) (endTime t) (isRunning t)
              (option_map (fun p => p + additionalMs) (pausedRemainingMs t))
              now (isComplete t) (isPaused t) in
  withTimer state (calculateComputedState newTimer (currentTime (ui state))).

Definition removeTime (now : Z) (minutes : Z) (state : AppState) : AppState :=
  let t := timer state in
  let reductionMs := minutes * 60 * 1000 in
  let newDurationMs := Z.max (60 * 1000) (durationMs t - reductionMs) in
  let newTimer :=
    if isRunning t && truthy (startTime t) && truthy (endTime t) then
      mkTimer newDurationMs (startTime t)
              (option_map
                 (fun e =>
                    let maxReduction := e - now - 1000 in
                    let actualReduction := Z.min reductionMs (Z.max 0 maxReduction) in
                    e - actualReduction)
                 (endTime t))
              (isRunning t) (pausedRemainingMs t) now (isComplete t) (isPaused t)
    else if isComplete t then
      mkTimer newDurationMs None None false None now (isComplete t) (isPaused t)
    else
      mkTimer newDurationMs (startTime t) (endTime t) (isRunning t)
              (option_map (fun p => Z.max (60 * 1000) (p - reductionMs))
                          (pausedRemainingMs t))
              now (isComplete t) (isPaused t) in
  withTimer state (calculateComputedState newTimer (currentTime (ui state))).

Definition setDuration (now : Z) (newDurationMs : Z) (state : AppState) : AppState :=
  let t := timer state in
  withTimer state
    (calculateComputedState
       (mkTimer newDurationMs (startTime t) (endTime t) (isRunning t)
                (pausedRemainingMs t) now (isComplete t) (isPaused t))
       (currentTime (ui state))).

(** [pausedRemainingMs === null ? undefined : pausedRemainingMs] *)
Definition nullToUndefined (w : wire_num) : option Z :=
  match w with
  | WNum z => Some z
  | WNull | WUndefined => None
  end.

Definition syncTimerState (timerState : Snapshot) (state : AppState) : AppState :=
  withTimer state
    (calculateComputedState
       (mkTimer (msg_durationMs timerState) (msg_startTime timerState)
                (msg_endTime timerState) (msg_isRunning timerState)
                (nullToUndefined (msg_pausedRemainingMs timerState))
                (msg_lastUpdated timerState) false false)
       (currentTime (ui state))).

Definition setConnected (connected : bool) (state : AppState) : AppState :=
  mkApp (timer state)
        (mkUi connected (currentTime (ui state)) (lastUpdateFromPubNub (ui state))).

Definition updateCurrentTime (newTime : Z) (state : AppState) : AppState :=
  let t := timer state in
  let newUi := mkUi (isConnected (ui state)) newTime (lastUpdateFromPubNub (ui state)) in
  if isRunning t && reached newTime (endTime t) then
    (* running timer auto-stops *)
    mkApp (calculateComputedState
             (mkTimer (durationMs t) (startTime t) (endTime t) false
                      (pausedRemainingMs t) newTime (isComplete t) (isPaused t))
             newTime)
          newUi
  else
    let computedTimer := calculateComputedState t newTime in
    if negb (Bool.eqb (isComplete computedTimer) (isComplete t))
       || negb (Bool.eqb (isPaused computedTimer) (isPaused t))
    then mkApp computedTimer newUi
    else mkApp t newUi.

Definition updateComputedState (state : AppState) : AppState :=
  withTimer state (calculateComputedState (timer state) (currentTime (ui state))).

(** ** Dispatching actions: the states the store can reach *)

Inductive Action : Type :=
| StartTimer (now : Z)
| PauseTimer (now : Z)
| ResetTimer (now : Z) (initialMinutes : option Z)
| AddTime (now minutes : Z)
| RemoveTime (now minutes : Z)
| SetDuration (now newDurationMs : Z)
| SyncTimerState (timerState : Snapshot)
| SetConnected (connected : bool)
| UpdateCurrentTime (newTime : Z)
| UpdateComputedState.

Definition dispatch (a : Action) (state : AppState) : AppState :=
  match a with
  | StartTimer now => startTimer now state
  | PauseTimer now => pauseTimer now state
  | ResetTimer now m => resetTimer now m state
  | AddTime now m => addTime now m state
  | RemoveTime now m => removeTime now m state
  | SetDuration now d => setDuration now d state
  | SyncTimerState s => syncTimerState s state
  | SetConnected b => setConnected b state
  | UpdateCurrentTime t => updateCurrentTime t state
  | UpdateComputedState => updateComputedState state
  end.

(** States reached from an initial state by actions that all satisfy [P]. *)
Inductive reachable_by (P : Action -> Prop) : AppState -> Prop :=
| reach_init : forall created shown, reachable_by P (initialState created shown)
| reach_step : forall a s, P a -> reachable_by P s -> reachable_by P (dispatch a s).

Definition any_action (_ : Action) : Prop := True.

Definition reachable : AppState -> Prop := reachable_by any_action.

Definition nonneg_wire (w : wire_num) : Prop :=
  match w with
  | WNum z => 0 <= z
  | WNull | WUndefined => True
  end.

(** Actions whose duration arguments are not negative; a remote snapshot is
    admitted when its durations are not negative either. *)
Definition nonneg_action (a : Action) : Prop :=
  match a with
  | ResetTimer _ (Some m) => 0 <= m
  | AddTime _ m => 0 <= m
  | SetDuration _ d => 0 <= d
  | SyncTimerState s => 0 <= msg_durationMs s /\ nonneg_wire (msg_pausedRemainingMs s)
  | _ => True
  end.

(** ** Display arithmetic ([timer.tsx]) *)

(** [Math.ceil (remainingMs / 1000)]: the quotient is the exact rational. *)
Definition remainingSeconds (remainingMs : Z) : Z :=
  if remainingMs <=? 0 then 0
  else Z.max 1 (Qceiling (Qmake remainingMs 1000)).

(** The display law in the words of the specification: [c] is the ceiling of
    [ms / 1000] when it is the least integer with [ms <= 1000 * c]. *)
Definition is_ceiling_of_thousandth (ms c : Z) : Prop :=
  ms <= 1000 * c /\ 1000 * (c - 1) < ms.

(** ** Synchronisation bridge ([store/pubnub-integration.tsx]) *)

Record MessageEvent := mkEvent {
  channel : string;
  message : Snapshot
}.

(** The references the component keeps between renders; [pubnubRef] records
    whether the client handle is set. *)
Record BridgeRefs := mkRefs {
  pubnubRef : bool;
  lastPublishedState : option Snapshot;
  isInitialized : bool;
  hasLoadedHistory : bool
}.

(** The message listener.  [timerProp] is the [timer] property the listener
    closes over; [!timer] is false for an object. *)
Definition messageListener (TIMER_CHANNEL : string) (timerProp : TimerState)
           (event : MessageEvent) (state : AppState) : AppState :=
  if String.eqb (channel event) TIMER_CHANNEL then
    let newState := message event in
    if lastUpdated timerProp <? msg_lastUpdated newState
    then syncTimerState newState state
    else state
  else state.

(** The answer of [pubnub.history ({count: 1})]: the list of retrieved
    messages. *)
Definition historyLoaded (messages : list Snapshot) (state : AppState) : AppState :=
  match messages with
  | latestState :: _ => syncTimerState latestState state
  | [] => state
  end.

(** [a !== b] on [number | null]. *)
Definition strictNeq (a b : option Z) : bool :=
  match a, b with
  | Some x, Some y => negb (x =? y)
  | None, None => false
  | _, _ => true
  end.

(** [published !== current] for [pausedRemainingMs]: a published [null] and a
    current [undefined] are different values. *)
Definition strictNeqPaused (published : wire_num) (current : option Z) : bool :=
  match published, current with
  | WNum x, Some y => negb (x =? y)
  | WUndefined, None => false
  | _, _ => true
  end.

Definition stateChanged (last : option Snapshot) (t : TimerState) : bool :=
  match last with
  | None => true
  | Some l =>
      negb (msg_durationMs l =? durationMs t)
      || strictNeq (msg_startTime l) (startTime t)
      || strictNeq (msg_endTime l) (endTime t)
      || negb (Bool.eqb (msg_isRunning l) (isRunning t))
      || strictNeqPaused (msg_pausedRemainingMs l) (pausedRemainingMs t)
  end.

(** [pausedRemainingMs ?? null] *)
Definition orNull (v : option Z) : wire_num :=
  match v with
  | Some z => WNum z
  | None => WNull
  end.

Definition stateToPublish (t : TimerState) : Snapshot :=
  mkSnapshot (durationMs t) (startTime t) (endTime t) (isRunning t)
             (orNull (pausedRemainingMs t)) (lastUpdated t).

(** The body of the publish effect: the message handed to [pubnub.publish],
    if any. *)
Definition publishEffect (refs : BridgeRefs) (state : AppState) : option Snapshot :=
  if negb (pubnubRef refs) || negb (isConnected (ui state))
     || negb (isInitialized refs) || negb (hasLoadedHistory refs)
  then None
  else if lastUpdateFromPubNub (ui state) then None
  else if stateChanged (lastPublishedState refs) (timer state)
       then Some (stateToPublish (timer state))
       else None.

(** The dependency list of the publish effect: the effect runs again after a
    render in which one of these values differs from the previous render. *)
Definition publishDepsChanged (prev cur : AppState) : bool :=
  negb (durationMs (timer prev) =? durationMs (timer cur))
  || strictNeq (startTime (timer prev)) (startTime (timer cur))
  || strictNeq (endTime (timer prev)) (endTime (timer cur))
  || negb (Bool.eqb (isRunning (timer prev)) (isRunning (timer cur)))
  || strictNeq (pausedRemainingMs (timer prev)) (pausedRemainingMs (timer cur))
  || negb (Bool.eqb (isConnected (ui prev)) (isConnected (ui cur)))
  || negb (Bool.eqb (lastUpdateFromPubNub (ui prev)) (lastUpdateFromPubNub (ui cur))).

(** ** The component that preceded the store ([timer.tsx] with
    [pubnub-context.tsx]): its sync and auto-stop effects *)

Module Legacy.

Record HookState := mkHooks {
  durationMs : Z;
  startTime : option Z;
  endTime : option Z;
  isRunning : bool;
  currentTime : Z;
  lastSyncedState : option Snapshot
}.

Definition isComplete (h : HookState) : bool :=
  negb (isRunning h) && truthy (startTime h) && reached (currentTime h) (endTime h).

Definition newer (timerState : Snapshot) (last : option Snapshot) : bool :=
  match last with
  | None => true
  | Some l => msg_lastUpdated l <? msg_lastUpdated timerState
  end.

(** The sync effect: the new hook state and the argument of
    [publishTimerState], if it is called. *)
Definition syncEffect (now : Z) (timerState : option Snapshot) (h : HookState)
  : HookState * option Snapshot :=
  match timerState with
  | None => (h, None)
  | Some ts =>
      if newer ts (lastSyncedState h) then
        let synced (running : bool) :=
          mkHooks (msg_durationMs ts) (msg_startTime ts) (msg_endTime ts)
                  running (currentTime h) (Some ts) in
        match msg_endTime ts with
        | Some e =>
            if msg_isRunning ts && negb (e =? 0) then
              let shouldStillBeRunning := now <? e in
              (synced shouldStillBeRunning,
               if shouldStillBeRunning then None
               else Some (mkSnapshot (msg_durationMs ts) (msg_startTime ts)
                                     (msg_endTime ts) false WUndefined now))
            else (synced (msg_isRunning ts), None)
        | None => (synced (msg_isRunning ts), None)
        end
      else (h, None)
  end.

(** The auto-stop effect. *)
Definition autoStopEffect (now : Z) (h : HookState) : HookState * option Snapshot :=
  if isRunning h && reached (currentTime h) (endTime h) then
    (mkHooks (durationMs h) (startTime h) (endTime h) false (currentTime h)
             (lastSyncedState h),
     Some (mkSnapshot (durationMs h) (startTime h) (endTime h) false WUndefined now))
  else (h, None).

End Legacy.

(** [TIMER_CHANNEL] of [config/config.ts]:
    [VITE_PUBNUB_CHANNEL || 'kid-timer-sync'], the empty string being falsy. *)
Definition TIMER_CHANNEL (VITE_PUBNUB_CHANNEL : option string) : string :=
  match VITE_PUBNUB_CHANNEL with
  | Some c => if String.eqb c EmptyString then "kid-timer-sync"%string else c
  | None => "kid-timer-sync"%string
  end.

(** ** Predicates of the specification *)

(** At most one of [isRunning] and [isPaused] holds, and [isComplete] holds
    only when [isRunning] does not. *)
Definition modes_exclusive (t : TimerState) : Prop :=
  isRunning t && isPaused t = false
  /\ (isComplete t = true -> isRunning t = false).

(** The durations a timer stores are not negative. *)
Definition nonneg_durations (t : TimerState) : Prop :=
  0 <= durationMs t
  /\ (forall p, pausedRemainingMs t = Some p -> 0 <= p).

(** The timer is running past its end time at [now]. *)
Definition running_past_end (now : Z) (t : TimerState) : Prop :=
  isRunning t = true /\ exists e, endTime t = Some e /\ e <= now.

(** ** Scenarios *)

Definition theChannel : string := TIMER_CHANNEL None.

(** An idle client whose clock reads 1000000, and a remote snapshot that
    claims to run although it ended 5000 ms ago. *)
Definition idleClient : AppState := initialState 1000000 1000000.

Definition expiredRunningSnapshot : Snapshot :=
  mkSnapshot 300000 (Some 695000) (Some 995000) true WNull 1000001.

Definition idleHooks : Legacy.HookState :=
  Legacy.mkHooks 300000 None None false 1000000 None.



(** A connected client whose bridge has finished its initial sync, and a
    newer snapshot of another device. *)
Definition connectedClient : AppState := setConnected true (initialState 1000 1000).

Definition readyRefs : BridgeRefs := mkRefs true None true true.

Definition remoteSnapshot : Snapshot :=
  mkSnapshot 600000 (Some 2000) (Some 602000) true WNull 2000.

(** A running timer that carries a paused remainder, as accepted from the
    channel. *)
Definition runningWithRemainder : AppState :=
  dispatch (SyncTimerState
              (mkSnapshot 300000 (Some 1000) (Some 301000) true (WNum 5000) 1000))
           (initialState 0 0).

(** A timer started at 1000 for five minutes and paused one second before
    its end. *)
Definition pausedNearEnd : AppState :=
  dispatch (PauseTimer 300000) (dispatch (StartTimer 1000) (initialState 0 0)).

(** A timer started at 1000 for five minutes: 3000 ms are left at 298000. *)
Definition runningNearEnd : AppState :=
  dispatch (StartTimer 1000) (initialState 0 0).

(** ** Values derived for display ([timer.tsx], [components/timer.tsx]) *)

(** The number held by a field that the surrounding test has found to be a
    number; in arithmetic [null] counts as 0. *)
Definition toNumber (v : option Z) : Z :=
  match v with
  | Some z => z
  | None => 0
  end.

(** [Math.floor (timer.durationMs / 1000)] *)
Definition totalSeconds (state : AppState) : Z := durationMs (timer state) / 1000.

(** [remainingMs] of [timer.tsx]; [now] is the [Date.now()] of the render. *)
Definition remainingMs (now : Z) (state : AppState) : Z :=
  let t := timer state in
  if isRunning t && truthy (endTime t) then
    Z.max 0 (toNumber (endTime t) - now)
  else if negb (isRunning t) && truthy (startTime t) && truthy (endTime t) then
    let timeRemaining := Z.max 0 (toNumber (endTime t) - currentTime (ui state)) in
    if timeRemaining =? 0 then 0 else durationMs t
  else if negb (isRunning t) && defined (pausedRemainingMs t) then
    toNumber (pausedRemainingMs t)
  else durationMs t.

(** [remainingMs] of [components/timer.tsx], which reads the stored flag. *)
Definition remainingMsComponent (now : Z) (state : AppState) : Z :=
  let t := timer state in
  if isRunning t && truthy (endTime t) then
    Z.max 0 (toNumber (endTime t) - now)
  else if defined (pausedRemainingMs t) then
    toNumber (pausedRemainingMs t)
  else if isComplete t then 0
  else durationMs t.

(** [progress]: the quotient is the exact rational. *)
Definition progress (total remaining : Z) : Q :=
  if 0 <? total
  then Qmult (Qdiv (inject_Z (total - remaining)) (inject_Z total)) (inject_Z 100)
  else inject_Z 0.

(** The [disabled] attributes of the buttons of [timer.tsx]. *)
Definition startDisabled (now : Z) (state : AppState) : bool :=
  remainingSeconds (remainingMs now state) =? 0.

Definition removeFiveDisabled (state : AppState) : bool := totalSeconds state <=? 300.

Definition removeOneDisabled (state : AppState) : bool := totalSeconds state <=? 60.

(** [n.toString ()] for an integer. *)
Definition numberToString (z : Z) : string := NilEmpty.string_of_int (Z.to_int z).

(** [s.padStart (2, '0')] *)
Definition padStart2 (s : string) : string :=
  match String.length s with
  | 0%nat => "00"%string
  | 1%nat => String "0"%char s
  | _ => s
  end.

(** [formatTime] of [timer.tsx]: [%] is the remainder that takes the sign of
    the dividend. *)
Definition formatTime (seconds : Z) : string :=
  let mins := seconds / 60 in
  let secs := Z.rem seconds 60 in
  (padStart2 (numberToString mins) ++ ":" ++ padStart2 (numberToString secs))%string.

(** The number written by a string of decimal digits. *)
Definition digitsValue (s : string) : option Z :=
  option_map (fun d => Z.of_int (Decimal.Pos d)) (NilEmpty.uint_of_string s).

(** ** Scheduler and status events ([store/pubnub-integration.tsx]) *)

(** The delay [scheduleNextUpdate] computes after its tick; [timerProp] is
    the [timer] property of the render that started the cycle. *)
Definition nextUpdateMs (timerProp : TimerState) (now : Z) : Z :=
  match endTime timerProp with
  | Some e =>
      if isRunning timerProp && negb (e =? 0) then
        let remaining := Z.max 0 (e - now) in
        if 0 <? remaining then
          let seconds := Qceiling (Qmake remaining 1000) in
          let msUntilNextSecond := remaining - (seconds - 1) * 1000 in
          Z.max 100 msUntilNextSecond
        else 0
      else 1000
  | None => 1000
  end.

(** One run of [scheduleNextUpdate]: the store after the tick and the delay
    of the next run. *)
Definition scheduleNextUpdate (timerProp : TimerState) (now : Z) (state : AppState)
  : AppState * Z :=
  (updateCurrentTime now state, nextUpdateMs timerProp now).

Definition statusListener (category : string) (state : AppState) : AppState :=
  if String.eqb category "PNConnectedCategory" then setConnected true state
  else if String.eqb category "PNNetworkDownCategory"
          || String.eqb category "PNNetworkIssuesCategory"
       then setConnected false state
       else state.

(** The promise of [publish] resolved: the published message is remembered. *)
Definition publishResolved (published : Snapshot) (refs : BridgeRefs) : BridgeRefs :=
  mkRefs (pubnubRef refs) (Some published) (isInitialized refs) (hasLoadedHistory refs).

(** The publish effect of the first version of the bridge: no flag, no
    history gate, and [pausedRemainingMs] published as it is. *)
Definition stateToPublishV1 (t : TimerState) : Snapshot :=
  mkSnapshot (durationMs t) (startTime t) (endTime t) (isRunning t)
             (match pausedRemainingMs t with Some p => WNum p | None => WUndefined end)
             (lastUpdated t).

Definition publishEffectV1 (refs : BridgeRefs) (state : AppState) : option Snapshot :=
  if negb (pubnubRef refs) || negb (isConnected (ui state)) || negb (isInitialized refs)
  then None
  else if stateChanged (lastPublishedState refs) (timer state)
       then Some (stateToPublishV1 (timer state))
       else None.

(** The listener as the initialisation effect registers it.  The effect
    depends on [syncTimerState] and [setConnected] only, so the listener it
    built in the render of [mounted] stays in place over later renders and
    keeps comparing with the [timer] property of that render. *)
Definition registeredListener (timerChannel : string) (mounted : AppState)
           (event : MessageEvent) (state : AppState) : AppState :=
  messageListener timerChannel (timer mounted) event state.

(** ** Configuration ([config/config.ts]) *)

(** [import.meta.env]: the value of a variable, if it is set; the empty
    string is falsy. *)
Definition envTruthy (v : option string) : bool :=
  match v with
  | Some s => negb (String.eqb s EmptyString)
  | None => false
  end.

(** [v || fallback] *)
Definition orElse (v : option string) (fallback : string) : string :=
  match v with
  | Some s => if String.eqb s EmptyString then fallback else s
  | None => fallback
  end.

Definition publishKey (env : string -> option string) : string :=
  orElse (env "VITE_PUBNUB_PUBLISH_KEY"%string) "demo".

Definition subscribeKey (env : string -> option string) : string :=
  orElse (env "VITE_PUBNUB_SUBSCRIBE_KEY"%string) "demo".

Definition requiredVars : list string :=
  ["VITE_PUBNUB_PUBLISH_KEY"%string; "VITE_PUBNUB_SUBSCRIBE_KEY"%string].

Record Validation := mkValidation {
  isValid : bool;
  missing : list string;
  usingDemo : bool
}.

Definition validatePubNubConfig (env : string -> option string) : Validation :=
  let missing := filter (fun varName => negb (envTruthy (env varName))) requiredVars in
  mkValidation (Nat.eqb (List.length missing) 0) missing
               (Nat.ltb 0 (List.length missing)).

(** ** Local actions *)

(** The actions a user or the scheduler dispatches: all but the sync of a
    remote snapshot. *)
Definition local_action (a : Action) : Prop :=
  match a with
  | SyncTimerState _ => False
  | _ => True
  end.

(** The clock reading an action writes into [lastUpdated]. *)
Definition stamp (a : Action) : option Z :=
  match a with
  | StartTimer now | PauseTimer now | ResetTimer now _
  | AddTime now _ | RemoveTime now _ | SetDuration now _ => Some now
  | _ => None
  end.

(** The shapes of a timer that only local actions have touched. *)
Definition local_shape (t : TimerState) : Prop :=
  (isRunning t = true ->
   pausedRemainingMs t = None /\ startTime t <> None /\ endTime t <> None)
  /\ (defined (pausedRemainingMs t) = true ->
      isRunning t = false /\ startTime t = None /\ endTime t = None).

(** ** The handlers of the component that preceded the store
    (the earlier [timer.tsx]) *)

Module LegacyTimer.

(** Each handler returns the new hook state and the argument it passes to
    [publishTimerState].  [paused] is [timerState?.pausedRemainingMs], a
    number or [undefined] as the interface [TimerState] of
    [pubnub-context.tsx] declares it. *)

Definition pausedWire (paused : option Z) : wire_num :=
  match paused with
  | Some p => WNum p
  | None => WUndefined
  end.

(** [currentPausedMs ? f (currentPausedMs) : undefined] *)
Definition adjustPaused (f : Z -> Z) (paused : option Z) : wire_num :=
  match paused with
  | Some p => if negb (p =? 0) then WNum (f p) else WUndefined
  | None => WUndefined
  end.

(** [remainingMs] as computed by the render; [renderNow] is its
    [Date.now()]. *)
Definition remainingMs (renderNow : Z) (paused : option Z) (h : Legacy.HookState) : Z :=
  if Legacy.isRunning h && truthy (Legacy.endTime h) then
    Z.max 0 (toNumber (Legacy.endTime h) - renderNow)
  else if negb (Legacy.isRunning h) && truthy (Legacy.startTime h)
          && truthy (Legacy.endTime h) then
    let timeRemaining :=
      Z.max 0 (toNumber (Legacy.endTime h) - Legacy.currentTime h) in
    if timeRemaining =? 0 then 0 else Legacy.durationMs h
  else if negb (Legacy.isRunning h) && defined paused then toNumber paused
  else Legacy.durationMs h.

Definition handleStart (now : Z) (paused : option Z) (h : Legacy.HookState)
  : Legacy.HookState * Snapshot :=
  let timeToRun :=
    if negb (Legacy.isRunning h) && defined paused then toNumber paused
    else Legacy.durationMs h in
  let newStartTime := now in
  let newEndTime := now + timeToRun in
  (Legacy.mkHooks (Legacy.durationMs h) (Some newStartTime) (Some newEndTime) true
                  (Legacy.currentTime h) (Legacy.lastSyncedState h),
   mkSnapshot (Legacy.durationMs h) (Some newStartTime) (Some newEndTime) true
              WUndefined now).

Definition handlePause (now renderNow : Z) (paused : option Z) (h : Legacy.HookState)
  : Legacy.HookState * Snapshot :=
  let currentRemainingMs := remainingMs renderNow paused h in
  (Legacy.mkHooks (Legacy.durationMs h) None None false
                  (Legacy.currentTime h) (Legacy.lastSyncedState h),
   mkSnapshot (Legacy.durationMs h) None None false (WNum currentRemainingMs) now).

Definition addTime (now minutes : Z) (paused : option Z) (h : Legacy.HookState)
  : Legacy.HookState * Snapshot :=
  let additionalMs := minutes * 60 * 1000 in
  let newDurationMs := Legacy.durationMs h + additionalMs in
  if Legacy.isRunning h && truthy (Legacy.startTime h) && truthy (Legacy.endTime h) then
    let newEndTime := toNumber (Legacy.endTime h) + additionalMs in
    (Legacy.mkHooks newDurationMs (Legacy.startTime h) (Some newEndTime)
                    (Legacy.isRunning h) (Legacy.currentTime h)
                    (Legacy.lastSyncedState h),
     mkSnapshot newDurationMs (Legacy.startTime h) (Some newEndTime) true
                WUndefined now)
  else if Legacy.isComplete h then
    (Legacy.mkHooks newDurationMs None None (Legacy.isRunning h)
                    (Legacy.currentTime h) (Legacy.lastSyncedState h),
     mkSnapshot newDurationMs None None false WUndefined now)
  else
    (Legacy.mkHooks newDurationMs (Legacy.startTime h) (Legacy.endTime h)
                    (Legacy.isRunning h) (Legacy.currentTime h)
                    (Legacy.lastSyncedState h),
     mkSnapshot newDurationMs (Legacy.startTime h) (Legacy.endTime h)
                (Legacy.isRunning h)
                (adjustPaused (fun p => p + additionalMs) paused) now).

Definition removeTime (now minutes : Z) (paused : option Z) (h : Legacy.HookState)
  : Legacy.HookState * Snapshot :=
  let reductionMs := minutes * 60 * 1000 in
  let newDurationMs := Z.max (60 * 1000) (Legacy.durationMs h - reductionMs) in
  if Legacy.isRunning h && truthy (Legacy.startTime h) && truthy (Legacy.endTime h) then
    let maxReduction := toNumber (Legacy.endTime h) - Legacy.currentTime h - 1000 in
    let actualReduction := Z.min reductionMs (Z.max 0 maxReduction) in
    let newEndTime := toNumber (Legacy.endTime h) - actualReduction in
    (Legacy.mkHooks newDurationMs (Legacy.startTime h) (Some newEndTime)
                    (Legacy.isRunning h) (Legacy.currentTime h)
                    (Legacy.lastSyncedState h),
     mkSnapshot newDurationMs (Legacy.startTime h) (Some newEndTime) true
                WUndefined now)
  else if Legacy.isComplete h then
    (Legacy.mkHooks newDurationMs None None (Legacy.isRunning h)
                    (Legacy.currentTime h) (Legacy.lastSyncedState h),
     mkSnapshot newDurationMs None None false WUndefined now)
  else
    (Legacy.mkHooks newDurationMs (Legacy.startTime h) (Legacy.endTime h)
                    (Legacy.isRunning h) (Legacy.currentTime h)
                    (Legacy.lastSyncedState h),
     mkSnapshot newDurationMs (Legacy.startTime h) (Legacy.endTime h)
                (Legacy.isRunning h)
                (adjustPaused (fun p => Z.max (60 * 1000) (p - reductionMs)) paused)
                now).

(** The store state that holds the same raw fields as the hooks. *)
Definition toStore (version : Z) (paused : option Z) (h : Legacy.HookState) : AppState :=
  mkApp (mkTimer (Legacy.durationMs h) (Legacy.startTime h) (Legacy.endTime h)
                 (Legacy.isRunning h) paused version (Legacy.isComplete h)
                 (negb (Legacy.isRunning h) && defined paused))
        (mkUi false (Legacy.currentTime h) false).

End LegacyTimer.

(** ** Further scenarios *)

(** A timer started at 1000 for five minutes and stopped by the tick at its
    end. *)
Definition completedTimer : AppState :=
  dispatch (UpdateCurrentTime 301000) (dispatch (StartTimer 1000) (initialState 0 0)).

(** An idle timer of ten minutes. *)
Definition tenMinutes : AppState := dispatch (AddTime 0 5) (initialState 0 0).

(** Hooks of the earlier component while a five minute timer runs. *)
Definition runningHooks : Legacy.HookState :=
  Legacy.mkHooks 300000 (Some 1000) (Some 301000) true 2000 None.

(** An environment that sets both keys, and one that sets nothing. *)
Definition customEnv (name : string) : option string :=
  if String.eqb name "VITE_PUBNUB_PUBLISH_KEY" then Some "pub-c-1"%string
  else if String.eqb name "VITE_PUBNUB_SUBSCRIBE_KEY" then Some "sub-c-1"%string
  else None.

Definition emptyEnv (name : string) : option string := None.

(** Reachability of a state given as an explicit sequence of actions. *)
Ltac reach_concrete :=
  repeat (apply reach_step; [first [exact I | vm_compute; discriminate]|]);
  apply reach_init.

(** * Properties *)

(** ** Display law *)

Lemma Qceiling_thousandth (ms : Z) :
  Qceiling (Qmake ms 1000) = - ((- ms) / 1000).
Proof.
  unfold Qceiling, Qfloor, Qopp. simpl. reflexivity.
Qed.

Lemma Qceiling_thousandth_is_ceiling (ms : Z) :
  is_ceiling_of_thousandth ms (Qceiling (Qmake ms 1000)).
Proof.
  rewrite Qceiling_thousandth. unfold is_ceiling_of_thousandth.
  pose proof (Z.div_mod (- ms) 1000 ltac:(lia)) as Hdm.
  pose proof (Z.mod_pos_bound (- ms) 1000 ltac:(lia)) as Hb.
  lia.
Qed.

Lemma ceiling_of_thousandth_unique (ms c d : Z) :
  is_ceiling_of_thousandth ms c -> is_ceiling_of_thousandth ms d -> c = d.
Proof.
  unfold is_ceiling_of_thousandth. lia.
Qed.

(** C6.  The displayed seconds are 0 when no time remains and otherwise the
    larger of 1 and the ceiling of [remainingMs / 1000], the ceiling being the
    integer [c] with [1000 * (c - 1) < remainingMs <= 1000 * c]; the six
    values of the specification are instances. *)
Theorem remainingSeconds_ceiling_law :
  (forall remainingMs : Z,
      exists c : Z,
        is_ceiling_of_thousandth remainingMs c
        /\ remainingSeconds remainingMs
           = (if remainingMs <=? 0 then 0 else Z.max 1 c))
  /\ remainingSeconds 60000 = 60
  /\ remainingSeconds 59999 = 60
  /\ remainingSeconds 1000 = 1
  /\ remainingSeconds 999 = 1
  /\ remainingSeconds 1 = 1
  /\ remainingSeconds 0 = 0.
Proof.
  split.
  - intro ms. exists (Qceiling (Qmake ms 1000)).
    split; [apply Qceiling_thousandth_is_ceiling | reflexivity].
  - repeat split; vm_compute; reflexivity.
Qed.

(** While time remains the floor at 1 never changes the ceiling. *)
Lemma remainingSeconds_positive (remainingMs : Z) :
  0 < remainingMs ->
  is_ceiling_of_thousandth remainingMs (remainingSeconds remainingMs)
  /\ 1 <= remainingSeconds remainingMs.
Proof.
  intro Hpos. unfold remainingSeconds.
  destruct (Z.leb_spec remainingMs 0) as [Hle|_]; [lia|].
  pose proof (Qceiling_thousandth_is_ceiling remainingMs) as Hc.
  unfold is_ceiling_of_thousandth in *. lia.
Qed.

(** ** Mutual exclusion of the modes *)

Lemma calculateComputedState_modes (t : TimerState) (now : Z) :
  modes_exclusive (calculateComputedState t now).
Proof.
  unfold modes_exclusive, calculateComputedState; simpl.
  destruct (isRunning t); simpl; split; auto; discriminate.
Qed.

(** Every action leaves the timer as it was, returns the blank timer of
    [resetTimer], or returns a result of [calculateComputedState]. *)
Lemma dispatch_timer_shape (a : Action) (state : AppState) :
  timer (dispatch a state) = timer state
  \/ (exists d now, timer (dispatch a state) = mkTimer d None None false None now false false)
  \/ (exists t now, timer (dispatch a state) = calculateComputedState t now).
Proof.
  destruct a; simpl;
    try (right; right; eexists; eexists; reflexivity);
    try (left; reflexivity).
  - right; left. eexists; eexists; reflexivity.
  - unfold updateCurrentTime.
    destruct (isRunning (timer state) && reached newTime (endTime (timer state))).
    + right; right. eexists; eexists; reflexivity.
    + match goal with |- context [if ?c then _ else _] => destruct c end.
      * right; right. eexists; eexists; reflexivity.
      * left; reflexivity.
Qed.

Lemma dispatch_modes (a : Action) (state : AppState) :
  modes_exclusive (timer state) -> modes_exclusive (timer (dispatch a state)).
Proof.
  intro Hinv.
  destruct (dispatch_timer_shape a state) as [Heq | [(d & now & Heq) | (t & now & Heq)]];
    rewrite Heq.
  - exact Hinv.
  - split; [reflexivity | intros; reflexivity].
  - apply calculateComputedState_modes.
Qed.

(** C4.  In every state reached from the initial state by any sequence of
    actions (with any arguments, clock readings and remote snapshots), at most
    one of [isRunning] and [isPaused] is true, and [isComplete] is true only
    when [isRunning] is false. *)
Theorem reachable_modes_exclusive (state : AppState) :
  reachable state -> modes_exclusive (timer state).
Proof.
  induction 1 as [created shown | a s _ _ IH].
  - split; [reflexivity | intros; reflexivity].
  - apply dispatch_modes, IH.
Qed.

(** ** Scheduler tick *)

Lemma not_past_end_not_reached (now : Z) (t : TimerState) :
  ~ running_past_end now t -> isRunning t && reached now (endTime t) = false.
Proof.
  intro Hn. destruct (isRunning t) eqn:Hrun; [|reflexivity]. simpl.
  unfold reached. destruct (endTime t) as [e|] eqn:He; [|reflexivity].
  destruct (Z.leb_spec e now) as [Hle|Hgt].
  - exfalso. apply Hn. split; [exact Hrun|]. exists e. split; [exact He | exact Hle].
  - apply andb_false_r.
Qed.

(** C10.  When the timer is not running past its end time and the flags
    recomputed at the new time equal the stored ones, a tick returns the timer
    unchanged, [lastUpdated] included; of the interface state only
    [currentTime] changes. *)
Theorem updateCurrentTime_frame (newTime : Z) (state : AppState) :
  ~ running_past_end newTime (timer state) ->
  isComplete (calculateComputedState (timer state) newTime) = isComplete (timer state) ->
  isPaused (calculateComputedState (timer state) newTime) = isPaused (timer state) ->
  updateCurrentTime newTime state
  = mkApp (timer state)
          (mkUi (isConnected (ui state)) newTime (lastUpdateFromPubNub (ui state))).
Proof.
  intros Hnot Hc Hp. unfold updateCurrentTime.
  rewrite (not_past_end_not_reached _ _ Hnot).
  rewrite Hc, Hp, !Bool.eqb_reflx. reflexivity.
Qed.

(** The expiry branch of the tick, for a running timer whose non-zero end
    time is reached: [isRunning] is cleared, [lastUpdated] is the tick time,
    [isComplete] is the truthiness of [startTime], and the other raw fields,
    [pausedRemainingMs] among them, are kept. *)
Lemma updateCurrentTime_expires (newTime e : Z) (state : AppState) :
  isRunning (timer state) = true ->
  endTime (timer state) = Some e -> e <> 0 -> e <= newTime ->
  let t' := timer (updateCurrentTime newTime state) in
  isRunning t' = false
  /\ startTime t' = startTime (timer state)
  /\ endTime t' = endTime (timer state)
  /\ durationMs t' = durationMs (timer state)
  /\ pausedRemainingMs t' = pausedRemainingMs (timer state)
  /\ lastUpdated t' = newTime
  /\ isComplete t' = truthy (startTime (timer state)).
Proof.
  intros Hrun He Hnz Hle. unfold updateCurrentTime.
  rewrite Hrun, He. unfold reached.
  destruct (Z.eqb_spec e 0) as [|_]; [contradiction|].
  destruct (Z.leb_spec e newTime) as [_|]; [|lia].
  simpl. repeat split; try reflexivity.
  destruct (Z.eqb_spec e 0) as [|_]; [contradiction|].
  destruct (Z.leb_spec e newTime) as [_|]; [|lia].
  simpl. apply andb_true_r.
Qed.

(** ** Pause and resume *)

(** C9.  Pausing a running timer at [pausedAt] stores the remaining time
    ([max 0 (endTime - pausedAt)] for a running timer with an end time);
    starting again at [now] runs for that stored time and not for the full
    duration: the new end time is [now] plus the stored remainder, and
    [pausedRemainingMs] is cleared. *)
Theorem pause_then_start_resumes (pausedAt now : Z) (state : AppState) :
  isRunning (timer state) = true ->
  let paused := pauseTimer pausedAt state in
  let resumed := startTimer now paused in
  exists remaining : Z,
    pausedRemainingMs (timer paused) = Some remaining
    /\ (forall e, endTime (timer state) = Some e -> e <> 0 ->
                  remaining = Z.max 0 (e - pausedAt))
    /\ endTime (timer resumed) = Some (now + remaining)
    /\ startTime (timer resumed) = Some now
    /\ isRunning (timer resumed) = true
    /\ pausedRemainingMs (timer resumed) = None.
Proof.
  intros Hrun paused resumed. subst paused resumed.
  unfold startTimer, pauseTimer; simpl. rewrite Hrun. simpl.
  eexists. split; [reflexivity|].
  split; [|repeat split; reflexivity].
  intros e He Hnz. rewrite He.
  destruct (Z.eqb_spec e 0) as [|_]; [contradiction|]. reflexivity.
Qed.

(** ** Removing time *)

Lemma removeTime_duration_floor (now minutes : Z) (state : AppState) :
  60000 <= durationMs (timer (removeTime now minutes state)).
Proof.
  unfold removeTime; simpl.
  repeat match goal with |- context [if ?c then _ else _] => destruct c end;
    simpl; lia.
Qed.

(** C7.  [removeTime] with a positive number of minutes never leaves
    [durationMs] below 60000.  When the timer is running and its end time is
    at least one second ahead of [now], every end time of the result is still
    at least one second ahead of [now] (and not later than before), and the
    end time stays present unless the stored [isComplete] flag sends the
    action to its completed branch. *)
Theorem removeTime_floors (now minutes : Z) (state : AppState) :
  0 < minutes ->
  let after := timer (removeTime now minutes state) in
  60000 <= durationMs after
  /\ (forall e,
         isRunning (timer state) = true ->
         endTime (timer state) = Some e ->
         now + 1000 <= e ->
         (forall e', endTime after = Some e' -> now + 1000 <= e' <= e)
         /\ (isComplete (timer state) = false ->
             isRunning after = true /\ exists e', endTime after = Some e')).
Proof.
  intros Hpos after. split; [apply removeTime_duration_floor|].
  intros e Hrun He Hfar. subst after. unfold removeTime; simpl.
  rewrite Hrun, He. simpl.
  destruct (truthy (startTime (timer state)) && negb (e =? 0)); simpl.
  - split.
    + intros e' Heq. inversion Heq; subst. lia.
    + intros _. split; [reflexivity | eexists; reflexivity].
  - destruct (isComplete (timer state)); simpl.
    + split; [intros e' Heq; discriminate | intros Hc; discriminate].
    + split.
      * intros e' Heq. inversion Heq; subst. lia.
      * intros _. split; [reflexivity | eexists; reflexivity].
Qed.

(** Running with 3000 ms left, [removeTime 5] moves the end time to exactly
    one second from now. *)
Example removeTime_near_end :
  endTime (timer runningNearEnd) = Some 301000
  /\ endTime (timer (removeTime 298000 5 runningNearEnd)) = Some 299000
  /\ durationMs (timer (removeTime 298000 5 runningNearEnd)) = 60000.
Proof. vm_compute. repeat split; reflexivity. Qed.

(** ** The stored paused remainder *)

Lemma pauseTimer_stores_remaining (now e : Z) (state : AppState) :
  isRunning (timer state) = true ->
  endTime (timer state) = Some e -> e <> 0 ->
  pausedRemainingMs (timer (pauseTimer now state)) = Some (Z.max 0 (e - now)).
Proof.
  intros Hrun He Hnz. unfold pauseTimer; simpl. rewrite Hrun, He.
  destruct (Z.eqb_spec e 0) as [|_]; [contradiction|]. reflexivity.
Qed.

Lemma removeTime_paused_floor (now minutes p : Z) (state : AppState) :
  isRunning (timer state) = false ->
  isComplete (timer state) = false ->
  pausedRemainingMs (timer state) = Some p ->
  pausedRemainingMs (timer (removeTime now minutes state))
  = Some (Z.max 60000 (p - minutes * 60 * 1000)).
Proof.
  intros Hrun Hc Hp. unfold removeTime; simpl. rewrite Hrun, Hc, Hp. reflexivity.
Qed.

Lemma dispatch_nonneg_durations (a : Action) (state : AppState) :
  nonneg_action a ->
  nonneg_durations (timer state) -> nonneg_durations (timer (dispatch a state)).
Proof.
  unfold nonneg_durations. intros Ha [Hd Hp].
  destruct state as [t u]; destruct t as [d st en run pr lu ic ip]; simpl in *.
  destruct a; simpl in *.
  - (* startTimer *) split; [exact Hd | discriminate].
  - (* pauseTimer *)
    split; [exact Hd|]. intros p Heq. inversion Heq; subst; clear Heq.
    destruct en as [e|]; [|exact Hd].
    destruct (run && negb (e =? 0)); [lia | exact Hd].
  - (* resetTimer *)
    split; [|discriminate]. destruct initialMinutes; lia.
  - (* addTime *)
    unfold addTime; simpl.
    destruct (run && truthy st && truthy en); simpl; [split; [lia | exact Hp]|].
    destruct ic; simpl; [split; [lia | discriminate]|].
    split; [lia|]. destruct pr as [q|]; simpl; [|discriminate].
    intros p Heq. inversion Heq; subst. specialize (Hp q eq_refl). lia.
  - (* removeTime *)
    unfold removeTime; simpl.
    destruct (run && truthy st && truthy en); simpl; [split; [lia | exact Hp]|].
    destruct ic; simpl; [split; [lia | discriminate]|].
    split; [lia|]. destruct pr as [q|]; simpl; [|discriminate].
    intros p Heq. inversion Heq; subst. lia.
  - (* setDuration *) split; [exact Ha | exact Hp].
  - (* syncTimerState *)
    destruct Ha as [Hsd Hsp]. split; [exact Hsd|].
    destruct (msg_pausedRemainingMs timerState); simpl; try discriminate.
    intros p Heq. inversion Heq; subst. exact Hsp.
  - (* setConnected *) split; assumption.
  - (* updateCurrentTime *)
    unfold updateCurrentTime; simpl.
    destruct (run && reached newTime en); simpl; [split; assumption|].
    match goal with |- context [if ?c then _ else _] => destruct c end;
      simpl; split; assumption.
  - (* updateComputedState *) split; assumption.
Qed.

Lemma reachable_nonneg_durations (state : AppState) :
  reachable_by nonneg_action state -> nonneg_durations (timer state).
Proof.
  induction 1 as [created shown | a s Ha _ IH].
  - split; simpl; [lia | discriminate].
  - apply dispatch_nonneg_durations; assumption.
Qed.

(** C8 (as amended).  The stored paused remainder is not bounded below by
    60000 in general.  In every state reached by actions whose durations are
    not negative it is at least 0; right after pausing a running timer it is
    exactly the time that remained at that moment, [max 0 (endTime - now)];
    and right after [removeTime] on a paused timer it is at least 60000. *)
Theorem pausedRemainingMs_bounds :
  (forall state p,
      reachable_by nonneg_action state ->
      pausedRemainingMs (timer state) = Some p -> 0 <= p)
  /\ (forall now e state,
         isRunning (timer state) = true ->
         endTime (timer state) = Some e -> e <> 0 ->
         pausedRemainingMs (timer (pauseTimer now state)) = Some (Z.max 0 (e - now)))
  /\ (forall now minutes p state,
         isRunning (timer state) = false ->
         isComplete (timer state) = false ->
         pausedRemainingMs (timer state) = Some p ->
         exists q, pausedRemainingMs (timer (removeTime now minutes state)) = Some q
                   /\ 60000 <= q).
Proof.
  split; [|split].
  - intros state p Hreach Hp.
    destruct (reachable_nonneg_durations state Hreach) as [_ Hall]. exact (Hall p Hp).
  - exact pauseTimer_stores_remaining.
  - intros now minutes p state Hrun Hc Hp.
    eexists. split; [apply (removeTime_paused_floor now minutes p); assumption | lia].
Qed.

(** A timer paused one second before its end stores 1000, below the floor of
    60000; removing a minute from it then raises the stored remainder to
    60000, above the 1000 ms that remained when it was paused. *)
Lemma pausedRemainingMs_below_floor :
  reachable pausedNearEnd
  /\ pausedRemainingMs (timer pausedNearEnd) = Some 1000
  /\ ~ 60000 <= 1000
  /\ reachable (dispatch (RemoveTime 300001 1) pausedNearEnd)
  /\ pausedRemainingMs (timer (dispatch (RemoveTime 300001 1) pausedNearEnd)) = Some 60000
  /\ ~ 60000 <= 1000.
Proof.
  assert (Hr : reachable pausedNearEnd).
  { unfold pausedNearEnd.
    apply reach_step; [exact I|]. apply reach_step; [exact I|]. apply reach_init. }
  split; [exact Hr|].
  split; [reflexivity|].
  split; [lia|].
  split; [apply reach_step; [exact I | exact Hr]|].
  split; [reflexivity | lia].
Qed.

(** ** Remote snapshots *)

Lemma syncTimerState_idempotent (snap : Snapshot) (state : AppState) :
  syncTimerState snap (syncTimerState snap state) = syncTimerState snap state.
Proof. reflexivity. Qed.




(** ** Echo of a remote snapshot *)

(** No action writes the flag that the publish effect reads. *)
Lemma dispatch_keeps_flag (a : Action) (state : AppState) :
  lastUpdateFromPubNub (ui (dispatch a state)) = lastUpdateFromPubNub (ui state).
Proof.
  destruct a; simpl; try reflexivity.
  unfold updateCurrentTime.
  repeat match goal with |- context [if ?c then _ else _] => destruct c end;
    reflexivity.
Qed.

Lemma lastUpdateFromPubNub_never_set (state : AppState) :
  reachable state -> lastUpdateFromPubNub (ui state) = false.
Proof.
  induction 1 as [created shown | a s _ _ IH]; [reflexivity|].
  rewrite dispatch_keeps_flag. exact IH.
Qed.

(** The raw fields published after a sync are those of the snapshot. *)
Lemma stateToPublish_after_sync (snap : Snapshot) (state : AppState) :
  stateToPublish (timer (syncTimerState snap state))
  = mkSnapshot (msg_durationMs snap) (msg_startTime snap) (msg_endTime snap)
               (msg_isRunning snap)
               (orNull (nullToUndefined (msg_pausedRemainingMs snap)))
               (msg_lastUpdated snap).
Proof. reflexivity. Qed.

(** Once the bridge is ready and connected, a snapshot synced into a reachable
    state is handed to [publish] whenever its raw fields differ from the last
    published ones. *)
Lemma publishEffect_after_sync (refs : BridgeRefs) (snap : Snapshot) (state : AppState) :
  reachable state ->
  pubnubRef refs = true -> isInitialized refs = true -> hasLoadedHistory refs = true ->
  isConnected (ui state) = true ->
  stateChanged (lastPublishedState refs) (timer (syncTimerState snap state)) = true ->
  publishEffect refs (syncTimerState snap state)
  = Some (stateToPublish (timer (syncTimerState snap state))).
Proof.
  intros Hreach Hpn Hinit Hhist Hconn Hchg. unfold publishEffect.
  rewrite Hpn, Hinit, Hhist, Hchg. simpl.
  rewrite Hconn, (lastUpdateFromPubNub_never_set state Hreach). reflexivity.
Qed.

(** C3, on a concrete delivery.  A connected client whose bridge is
    ready accepts a newer snapshot from the channel; the raw fields change,
    so the publish effect runs again, the flag [lastUpdateFromPubNub] is still
    false, and the effect publishes the very snapshot it has just received. *)
Theorem publish_echoes_remote_snapshot :
  let received :=
    messageListener theChannel (timer connectedClient)
                    (mkEvent theChannel remoteSnapshot) connectedClient in
  reachable connectedClient
  /\ lastUpdated (timer connectedClient) < msg_lastUpdated remoteSnapshot
  /\ received = syncTimerState remoteSnapshot connectedClient
  /\ lastUpdateFromPubNub (ui received) = false
  /\ publishDepsChanged connectedClient received = true
  /\ publishEffect readyRefs received = Some remoteSnapshot.
Proof.
  split.
  { unfold connectedClient.
    apply (reach_step any_action (SetConnected true)); [exact I | apply reach_init]. }
  split; [reflexivity|].
  repeat split; reflexivity.
Qed.

(** ** A remote snapshot that has already expired *)

(** [syncTimerState] takes [isRunning] from the snapshot as it is. *)
Lemma syncTimerState_running (snap : Snapshot) (state : AppState) :
  msg_isRunning snap = true ->
  isRunning (timer (syncTimerState snap state)) = true
  /\ isComplete (timer (syncTimerState snap state)) = false.
Proof.
  intro Hrun. unfold syncTimerState, calculateComputedState; simpl.
  rewrite Hrun. split; reflexivity.
Qed.

(** The sync effect of the earlier component stops such a snapshot. *)
Lemma legacy_syncEffect_stops_expired (now e : Z) (snap : Snapshot) (h : Legacy.HookState) :
  Legacy.newer snap (Legacy.lastSyncedState h) = true ->
  msg_isRunning snap = true ->
  msg_endTime snap = Some e -> e <> 0 -> e <= now ->
  Legacy.isRunning (fst (Legacy.syncEffect now (Some snap) h)) = false
  /\ Legacy.endTime (fst (Legacy.syncEffect now (Some snap) h)) = Some e
  /\ snd (Legacy.syncEffect now (Some snap) h)
     = Some (mkSnapshot (msg_durationMs snap) (msg_startTime snap) (Some e)
                        false WUndefined now).
Proof.
  intros Hnew Hrun He Hnz Hle. unfold Legacy.syncEffect.
  rewrite Hnew, He, Hrun.
  destruct (Z.eqb_spec e 0) as [|_]; [contradiction|].
  destruct (Z.ltb_spec now e) as [|_]; [lia|].
  simpl. rewrite ?He. repeat split; reflexivity.
Qed.

(** In the earlier component the stopped timer is complete as soon
    as the clock state has reached the end time. *)
Lemma legacy_syncEffect_completes (now e : Z) (snap : Snapshot) (h : Legacy.HookState) :
  Legacy.newer snap (Legacy.lastSyncedState h) = true ->
  msg_isRunning snap = true ->
  truthy (msg_startTime snap) = true ->
  msg_endTime snap = Some e -> e <> 0 -> e <= now -> e <= Legacy.currentTime h ->
  Legacy.isComplete (fst (Legacy.syncEffect now (Some snap) h)) = true.
Proof.
  intros Hnew Hrun Hstart He Hnz Hle Hcur.
  unfold Legacy.syncEffect, Legacy.isComplete.
  rewrite Hnew, He, Hrun.
  destruct (Z.eqb_spec e 0) as [|_]; [contradiction|].
  destruct (Z.ltb_spec now e) as [|_]; [lia|].
  simpl. rewrite Hstart.
  destruct (Z.eqb_spec e 0) as [|_]; [contradiction|].
  destruct (Z.leb_spec e (Legacy.currentTime h)) as [_|]; [reflexivity | lia].
Qed.

(** With the store, it is the tick after the sync that stops and completes
    the timer. *)
Lemma sync_then_tick_completes (now e : Z) (snap : Snapshot) (state : AppState) :
  msg_isRunning snap = true ->
  truthy (msg_startTime snap) = true ->
  msg_endTime snap = Some e -> e <> 0 -> e <= now ->
  let ticked := timer (updateCurrentTime now (syncTimerState snap state)) in
  isRunning ticked = false /\ isComplete ticked = true
  /\ endTime ticked = Some e /\ lastUpdated ticked = now.
Proof.
  intros Hrun Hstart He Hnz Hle ticked. subst ticked.
  assert (Hsynced : isRunning (timer (syncTimerState snap state)) = true)
    by (apply syncTimerState_running; exact Hrun).
  assert (Hsend : endTime (timer (syncTimerState snap state)) = Some e)
    by exact He.
  destruct (updateCurrentTime_expires now e (syncTimerState snap state)
              Hsynced Hsend Hnz Hle) as (Hr & _ & Hend & _ & _ & Hlu & Hc).
  rewrite Hr, Hend, Hlu, Hc. simpl. rewrite Hstart, He. repeat split; reflexivity.
Qed.

(** C1, on a concrete delivery.  An idle client whose clock reads
    1000000 receives a newer snapshot that claims to run and whose end time
    995000 is past: the state returned by [syncTimerState] is running and not
    complete.  Only the following tick stops it; the sync effect of the
    earlier component stops it at once. *)
Theorem syncTimerState_keeps_expired_running :
  let received :=
    messageListener theChannel (timer idleClient)
                    (mkEvent theChannel expiredRunningSnapshot) idleClient in
  lastUpdated (timer idleClient) < msg_lastUpdated expiredRunningSnapshot
  /\ msg_isRunning expiredRunningSnapshot = true
  /\ msg_endTime expiredRunningSnapshot = Some 995000
  /\ currentTime (ui idleClient) = 1000000
  /\ received = syncTimerState expiredRunningSnapshot idleClient
  /\ isRunning (timer received) = true
  /\ isComplete (timer received) = false
  /\ isRunning (timer (updateCurrentTime 1000000 received)) = false
  /\ isComplete (timer (updateCurrentTime 1000000 received)) = true
  /\ Legacy.isRunning
       (fst (Legacy.syncEffect 1000000 (Some expiredRunningSnapshot) idleHooks)) = false.
Proof.
  split; [reflexivity|]. repeat split; reflexivity.
Qed.

(** ** Expiry with a paused remainder *)

(** The auto-stop effect of the earlier component publishes the stopped state
    without a paused remainder. *)
Lemma legacy_autoStop_clears_remainder (now : Z) (h : Legacy.HookState) :
  Legacy.isRunning h = true ->
  reached (Legacy.currentTime h) (Legacy.endTime h) = true ->
  exists m, snd (Legacy.autoStopEffect now h) = Some m
            /\ msg_isRunning m = false
            /\ msg_pausedRemainingMs m = WUndefined.
Proof.
  intros Hrun Hend. unfold Legacy.autoStopEffect. rewrite Hrun, Hend. simpl.
  eexists. repeat split; reflexivity.
Qed.

(** C5, on a concrete state.  A running timer whose end time
    301000 is reached is stopped by the tick with [startTime], [endTime] and
    [durationMs] kept and [isComplete] true, but the paused remainder it
    carries is kept too, and [isPaused] becomes true. *)
Theorem updateCurrentTime_keeps_paused_remainder :
  let after := timer (updateCurrentTime 301000 runningWithRemainder) in
  reachable runningWithRemainder
  /\ isRunning (timer runningWithRemainder) = true
  /\ endTime (timer runningWithRemainder) = Some 301000
  /\ pausedRemainingMs (timer runningWithRemainder) = Some 5000
  /\ isRunning after = false
  /\ startTime after = Some 1000
  /\ endTime after = Some 301000
  /\ durationMs after = 300000
  /\ isComplete after = true
  /\ pausedRemainingMs after = Some 5000
  /\ isPaused after = true.
Proof.
  split.
  { unfold runningWithRemainder. apply reach_step; [exact I | apply reach_init]. }
  repeat split; reflexivity.
Qed.

(** ** The theorems at concrete inputs *)

Lemma reachable_modes_exclusive_witness :
  reachable pausedNearEnd /\ modes_exclusive (timer pausedNearEnd).
Proof.
  assert (Hr : reachable pausedNearEnd).
  { unfold pausedNearEnd.
    apply reach_step; [exact I|]. apply reach_step; [exact I|]. apply reach_init. }
  split; [exact Hr | exact (reachable_modes_exclusive pausedNearEnd Hr)].
Defined.

Lemma updateCurrentTime_frame_witness :
  ~ running_past_end 2000 (timer runningNearEnd)
  /\ updateCurrentTime 2000 runningNearEnd
     = mkApp (timer runningNearEnd) (mkUi false 2000 false).
Proof.
  assert (Hn : ~ running_past_end 2000 (timer runningNearEnd)).
  { intros [_ (e & He & Hle)]. vm_compute in He. inversion He; subst e.
    vm_compute in Hle. apply Hle. reflexivity. }
  split; [exact Hn|].
  exact (updateCurrentTime_frame 2000 runningNearEnd Hn eq_refl eq_refl).
Defined.

Lemma pause_then_start_resumes_witness :
  isRunning (timer runningNearEnd) = true
  /\ pausedRemainingMs (timer (pauseTimer 100000 runningNearEnd)) = Some 201000
  /\ endTime (timer (startTimer 200000 (pauseTimer 100000 runningNearEnd)))
     = Some (200000 + 201000)
  /\ pausedRemainingMs (timer (startTimer 200000 (pauseTimer 100000 runningNearEnd)))
     = None.
Proof.
  split; [reflexivity|].
  destruct (pause_then_start_resumes 100000 200000 runningNearEnd eq_refl)
    as (remaining & Hstored & Hformula & Hend & _ & _ & Hcleared).
  assert (Hrem : remaining = 201000).
  { apply (Hformula 301000); [reflexivity | discriminate]. }
  rewrite Hrem in Hstored, Hend.
  split; [exact Hstored|]. split; [exact Hend | exact Hcleared].
Defined.

Lemma removeTime_floors_witness :
  0 < 5
  /\ 60000 <= durationMs (timer (removeTime 298000 5 runningNearEnd))
  /\ (forall e', endTime (timer (removeTime 298000 5 runningNearEnd)) = Some e' ->
                 298000 + 1000 <= e' <= 301000)
  /\ isRunning (timer (removeTime 298000 5 runningNearEnd)) = true.
Proof.
  assert (Hpos : 0 < 5) by reflexivity.
  split; [exact Hpos|].
  destruct (removeTime_floors 298000 5 runningNearEnd Hpos) as [Hfloor Hend].
  split; [exact Hfloor|].
  assert (Hfar : 298000 + 1000 <= 301000) by (vm_compute; discriminate).
  destruct (Hend 301000 eq_refl eq_refl Hfar) as [Hall Hkept].
  split; [exact Hall|].
  destruct (Hkept eq_refl) as [Hrun _]. exact Hrun.
Defined.

Lemma pausedRemainingMs_bounds_witness :
  reachable_by nonneg_action pausedNearEnd
  /\ 0 <= 1000
  /\ pausedRemainingMs (timer (pauseTimer 300000 runningNearEnd))
     = Some (Z.max 0 (301000 - 300000))
  /\ exists q, pausedRemainingMs (timer (removeTime 300001 1 pausedNearEnd)) = Some q
               /\ 60000 <= q.
Proof.
  destruct pausedRemainingMs_bounds as (Hnonneg & Hpause & Hremove).
  assert (Hr : reachable_by nonneg_action pausedNearEnd).
  { unfold pausedNearEnd.
    apply reach_step; [exact I|]. apply reach_step; [exact I|]. apply reach_init. }
  split; [exact Hr|].
  split; [exact (Hnonneg pausedNearEnd 1000 Hr eq_refl)|].
  split.
  - apply (Hpause 300000 301000 runningNearEnd); [reflexivity | reflexivity | discriminate].
  - exact (Hremove 300001 1 1000 pausedNearEnd eq_refl eq_refl eq_refl).
Defined.

(** * Further properties of the store *)

(** ** Stored flags *)

Lemma calculateComputedState_idempotent (t : TimerState) (now : Z) :
  calculateComputedState (calculateComputedState t now) now
  = calculateComputedState t now.
Proof. reflexivity. Qed.

Lemma flags_equal_fixpoint (t : TimerState) (now : Z) :
  isComplete (calculateComputedState t now) = isComplete t ->
  isPaused (calculateComputedState t now) = isPaused t ->
  t = calculateComputedState t now.
Proof.
  destruct t as [d st en run pr lu ic ip]. unfold calculateComputedState; simpl.
  intros Hc Hp. rewrite Hc, Hp. reflexivity.
Qed.

(** Whatever the state, after a tick the stored flags are the flags computed
    from the raw fields at the tick time. *)
Lemma updateCurrentTime_flags (newTime : Z) (state : AppState) :
  timer (updateCurrentTime newTime state)
  = calculateComputedState (timer (updateCurrentTime newTime state)) newTime.
Proof.
  unfold updateCurrentTime.
  destruct (isRunning (timer state) && reached newTime (endTime (timer state))).
  - reflexivity.
  - destruct (Bool.eqb (isComplete (calculateComputedState (timer state) newTime))
                       (isComplete (timer state))) eqn:Hc;
      [|reflexivity].
    destruct (Bool.eqb (isPaused (calculateComputedState (timer state) newTime))
                       (isPaused (timer state))) eqn:Hp;
      [|reflexivity].
    simpl. apply flags_equal_fixpoint; apply eqb_prop; assumption.
Qed.

Lemma updateCurrentTime_currentTime (newTime : Z) (state : AppState) :
  currentTime (ui (updateCurrentTime newTime state)) = newTime.
Proof.
  unfold updateCurrentTime.
  repeat match goal with |- context [if ?c then _ else _] => destruct c end;
    reflexivity.
Qed.

Lemma dispatch_flags_in_sync (a : Action) (state : AppState) :
  timer state = calculateComputedState (timer state) (currentTime (ui state)) ->
  timer (dispatch a state)
  = calculateComputedState (timer (dispatch a state))
                           (currentTime (ui (dispatch a state))).
Proof.
  intro Hinv. destruct a; simpl; try reflexivity; try exact Hinv.
  rewrite updateCurrentTime_currentTime. apply updateCurrentTime_flags.
Qed.

Lemma reachable_flags (state : AppState) :
  reachable state ->
  timer state = calculateComputedState (timer state) (currentTime (ui state)).
Proof.
  induction 1 as [created shown | a s _ _ IH]; [reflexivity|].
  apply dispatch_flags_in_sync, IH.
Qed.

(** X1.  In every reachable state the stored [isComplete] and [isPaused] are
    the flags [calculateComputedState] derives from the raw fields and the
    stored [currentTime]: the stored flags never fall out of step with the
    fields they are computed from. *)
Theorem reachable_flags_in_sync (state : AppState) :
  reachable state ->
  isComplete (timer state)
  = negb (isRunning (timer state)) && truthy (startTime (timer state))
    && reached (currentTime (ui state)) (endTime (timer state))
  /\ isPaused (timer state)
     = negb (isRunning (timer state)) && defined (pausedRemainingMs (timer state)).
Proof.
  intro Hreach. pose proof (reachable_flags state Hreach) as Hflags.
  split; rewrite Hflags at 1; reflexivity.
Qed.

Lemma updateCurrentTime_not_past_end (newTime : Z) (state : AppState) :
  isRunning (timer (updateCurrentTime newTime state))
  && reached newTime (endTime (timer (updateCurrentTime newTime state))) = false.
Proof.
  unfold updateCurrentTime.
  destruct (isRunning (timer state) && reached newTime (endTime (timer state))) eqn:Hexp.
  - reflexivity.
  - match goal with |- context [if ?c then _ else _] => destruct c end;
      simpl; exact Hexp.
Qed.

(** X2.  After a tick at [newTime], from any state: the stored clock is
    [newTime], the stored flags are those computed at [newTime], the timer is
    not running with a reached end time, and a second tick at the same time
    changes nothing. *)
Theorem updateCurrentTime_settles (newTime : Z) (state : AppState) :
  let ticked := updateCurrentTime newTime state in
  currentTime (ui ticked) = newTime
  /\ timer ticked = calculateComputedState (timer ticked) newTime
  /\ isRunning (timer ticked) && reached newTime (endTime (timer ticked)) = false
  /\ updateCurrentTime newTime ticked = ticked.
Proof.
  intro ticked. subst ticked.
  split; [apply updateCurrentTime_currentTime|].
  split; [apply updateCurrentTime_flags|].
  split; [apply updateCurrentTime_not_past_end|].
  pose proof (updateCurrentTime_flags newTime state) as Hflags.
  pose proof (updateCurrentTime_not_past_end newTime state) as Hnot.
  pose proof (updateCurrentTime_currentTime newTime state) as Hct.
  set (s' := updateCurrentTime newTime state) in *.
  unfold updateCurrentTime at 1. rewrite Hnot, <- Hflags, !Bool.eqb_reflx. simpl.
  destruct s' as [t' u']. destruct u' as [c ct f]. simpl in *. subst ct. reflexivity.
Qed.

(** ** States that only local actions have touched *)

Lemma reachable_by_any (P : Action -> Prop) (state : AppState) :
  reachable_by P state -> reachable state.
Proof.
  induction 1 as [created shown | a s _ _ IH].
  - apply reach_init.
  - apply reach_step; [exact I | exact IH].
Qed.

Lemma option_map_not_none (A B : Type) (f : A -> B) (v : option A) :
  v <> None -> option_map f v <> None.
Proof. destruct v; simpl; [discriminate | intro H; exfalso; apply H; reflexivity]. Qed.

Lemma dispatch_local_shape (a : Action) (state : AppState) :
  local_action a ->
  local_shape (timer state) -> local_shape (timer (dispatch a state)).
Proof.
  unfold local_shape. intros Ha [Hrun Hpaused].
  destruct state as [t u]; destruct t as [d st en run pr lu ic ip]; simpl in *.
  destruct a; simpl in *; try contradiction.
  - (* startTimer *)
    split; [intros _; repeat split; discriminate | discriminate].
  - (* pauseTimer *)
    split; [discriminate | intros _; repeat split; reflexivity].
  - (* resetTimer *)
    split; discriminate.
  - (* addTime *)
    unfold addTime; simpl.
    destruct (run && truthy st && truthy en) eqn:Hb; simpl.
    + apply andb_prop in Hb. destruct Hb as [Hb _]. apply andb_prop in Hb.
      destruct Hb as [Hr _]. subst run.
      destruct (Hrun eq_refl) as (Hpr & Hst & Hen). subst pr.
      split; [|discriminate].
      intros _. repeat split; [exact Hst | apply option_map_not_none; exact Hen].
    + destruct ic; simpl; [split; discriminate|].
      split.
      * intro Hr. destruct (Hrun Hr) as (Hpr & Hst & Hen). subst pr.
        repeat split; assumption.
      * intro Hd. apply Hpaused. destruct pr; [reflexivity | discriminate].
  - (* removeTime *)
    unfold removeTime; simpl.
    destruct (run && truthy st && truthy en) eqn:Hb; simpl.
    + apply andb_prop in Hb. destruct Hb as [Hb _]. apply andb_prop in Hb.
      destruct Hb as [Hr _]. subst run.
      destruct (Hrun eq_refl) as (Hpr & Hst & Hen). subst pr.
      split; [|discriminate].
      intros _. repeat split; [exact Hst | apply option_map_not_none; exact Hen].
    + destruct ic; simpl; [split; discriminate|].
      split.
      * intro Hr. destruct (Hrun Hr) as (Hpr & Hst & Hen). subst pr.
        repeat split; assumption.
      * intro Hd. apply Hpaused. destruct pr; [reflexivity | discriminate].
  - (* setDuration *) split; assumption.
  - (* setConnected *) split; assumption.
  - (* updateCurrentTime *)
    unfold updateCurrentTime; simpl.
    destruct (run && reached newTime en) eqn:Hb; simpl.
    + apply andb_prop in Hb. destruct Hb as [Hr _]. subst run.
      destruct (Hrun eq_refl) as (Hpr & _ & _). subst pr.
      split; discriminate.
    + match goal with |- context [if ?c then _ else _] => destruct c end;
        simpl; split; assumption.
  - (* updateComputedState *) split; assumption.
Qed.

Lemma reachable_local_shape (state : AppState) :
  reachable_by local_action state -> local_shape (timer state).
Proof.
  induction 1 as [created shown | a s Ha _ IH].
  - split; simpl; discriminate.
  - apply dispatch_local_shape; assumption.
Qed.

(** X3.  In every state reached by local actions alone the three modes
    exclude one another: a running timer has start and end times and no
    paused remainder; a timer with a paused remainder is not running and has
    neither start nor end time; and [isPaused] and [isComplete] are never
    both true. *)
Theorem local_modes_three_way (state : AppState) :
  reachable_by local_action state ->
  local_shape (timer state)
  /\ isPaused (timer state) && isComplete (timer state) = false
  /\ isRunning (timer state) && isPaused (timer state) = false
  /\ isRunning (timer state) && isComplete (timer state) = false.
Proof.
  intro Hreach.
  pose proof (reachable_local_shape state Hreach) as Hshape.
  pose proof (reachable_flags state (reachable_by_any _ _ Hreach)) as Hflags.
  split; [exact Hshape|].
  destruct Hshape as [_ Hpaused].
  rewrite Hflags. unfold calculateComputedState; simpl.
  destruct (isRunning (timer state)); simpl; [repeat split; reflexivity|].
  split; [|split; reflexivity].
  destruct (defined (pausedRemainingMs (timer state))) eqn:Hd; [|reflexivity].
  destruct (Hpaused eq_refl) as (_ & Hst & _). rewrite Hst. reflexivity.
Qed.

(** ** Local edits and older snapshots *)

Lemma stamped_lastUpdated (a : Action) (now : Z) (state : AppState) :
  stamp a = Some now -> lastUpdated (timer (dispatch a state)) = now.
Proof.
  destruct a; simpl; intro Hs; inversion Hs; subst; try reflexivity.
  - unfold addTime; simpl.
    repeat match goal with |- context [if ?c then _ else _] => destruct c end;
      reflexivity.
  - unfold removeTime; simpl.
    repeat match goal with |- context [if ?c then _ else _] => destruct c end;
      reflexivity.
Qed.

(** X4.  Every command that reads the clock ([startTimer], [pauseTimer],
    [resetTimer], [addTime], [removeTime], [setDuration]) stamps [lastUpdated]
    with that reading.  The message listener compares an incoming snapshot
    with the timer of the render that registered it and not with the store:
    a snapshot on the timer channel that is newer than that timer is applied
    whatever the store holds by then, so it replaces a local edit even when
    the edit carries a later stamp, and the store takes the stamp of the
    snapshot. *)
Theorem listener_compares_with_mount_timer
        (ch : string) (mounted : AppState) (a : Action) (now : Z)
        (event : MessageEvent) (state : AppState) :
  stamp a = Some now ->
  channel event = ch ->
  lastUpdated (timer mounted) < msg_lastUpdated (message event) ->
  lastUpdated (timer (dispatch a state)) = now
  /\ registeredListener ch mounted event (dispatch a state)
     = syncTimerState (message event) (dispatch a state)
  /\ lastUpdated (timer (registeredListener ch mounted event (dispatch a state)))
     = msg_lastUpdated (message event).
Proof.
  intros Hs Hch Hlt.
  split; [exact (stamped_lastUpdated a now state Hs)|].
  assert (Happlied : registeredListener ch mounted event (dispatch a state)
                     = syncTimerState (message event) (dispatch a state)).
  { unfold registeredListener, messageListener.
    destruct (String.eqb_spec (channel event) ch) as [_|Hne]; [|contradiction].
    destruct (Z.ltb_spec (lastUpdated (timer mounted)) (msg_lastUpdated (message event)))
      as [_|Hge]; [reflexivity | lia]. }
  split; [exact Happlied|]. rewrite Happlied. reflexivity.
Qed.

(** ** Adjusting the time *)

Lemma addTime_running_exact (now minutes e : Z) (state : AppState) :
  isRunning (timer state) = true ->
  truthy (startTime (timer state)) = true ->
  endTime (timer state) = Some e -> e <> 0 ->
  timer (addTime now minutes state)
  = mkTimer (durationMs (timer state) + minutes * 60000)
            (startTime (timer state)) (Some (e + minutes * 60000)) true
            (pausedRemainingMs (timer state)) now false false.
Proof.
  intros Hrun Hst He Hnz. unfold addTime; simpl. rewrite Hrun, Hst, He. simpl.
  destruct (Z.eqb_spec e 0) as [|_]; [contradiction|]. simpl.
  unfold calculateComputedState; simpl.
  f_equal; try lia. f_equal. lia.
Qed.

Lemma removeTime_running_exact (now minutes e : Z) (state : AppState) :
  isRunning (timer state) = true ->
  truthy (startTime (timer state)) = true ->
  endTime (timer state) = Some e -> e <> 0 ->
  timer (removeTime now minutes state)
  = mkTimer (Z.max 60000 (durationMs (timer state) - minutes * 60000))
            (startTime (timer state))
            (Some (e - Z.min (minutes * 60000) (Z.max 0 (e - now - 1000)))) true
            (pausedRemainingMs (timer state)) now false false.
Proof.
  intros Hrun Hst He Hnz. unfold removeTime; simpl. rewrite Hrun, Hst, He. simpl.
  destruct (Z.eqb_spec e 0) as [|_]; [contradiction|]. simpl.
  unfold calculateComputedState; simpl.
  f_equal; try lia. f_equal. lia.
Qed.

(** X5.  On a running timer with truthy start and end times, [addTime] moves
    the end time and the duration by the same [minutes * 60000]; [removeTime]
    lowers the duration to no less than 60000 and the end time by the
    requested amount, but by no more than what leaves one second from [now],
    and by nothing once less than a second remains.  Both keep the start time
    and the paused remainder, stamp the clock and leave the timer running. *)
Theorem adjust_running_timer (now minutes e : Z) (state : AppState) :
  isRunning (timer state) = true ->
  truthy (startTime (timer state)) = true ->
  endTime (timer state) = Some e -> e <> 0 ->
  timer (addTime now minutes state)
  = mkTimer (durationMs (timer state) + minutes * 60000)
            (startTime (timer state)) (Some (e + minutes * 60000)) true
            (pausedRemainingMs (timer state)) now false false
  /\ timer (removeTime now minutes state)
     = mkTimer (Z.max 60000 (durationMs (timer state) - minutes * 60000))
               (startTime (timer state))
               (Some (e - Z.min (minutes * 60000) (Z.max 0 (e - now - 1000)))) true
               (pausedRemainingMs (timer state)) now false false.
Proof.
  intros Hrun Hst He Hnz. split.
  - apply addTime_running_exact; assumption.
  - apply removeTime_running_exact; assumption.
Qed.

(** X6.  Adjusting a completed timer un-completes it: [addTime] and
    [removeTime] on a stopped timer whose [isComplete] flag is set return the
    blank timer at the adjusted duration, with no start or end time, no paused
    remainder and both flags cleared. *)
Theorem adjust_after_completion_clears (now minutes : Z) (state : AppState) :
  isRunning (timer state) = false ->
  isComplete (timer state) = true ->
  timer (addTime now minutes state)
  = mkTimer (durationMs (timer state) + minutes * 60000)
            None None false None now false false
  /\ timer (removeTime now minutes state)
     = mkTimer (Z.max 60000 (durationMs (timer state) - minutes * 60000))
               None None false None now false false.
Proof.
  intros Hrun Hc. unfold addTime, removeTime; simpl. rewrite Hrun, Hc. simpl.
  unfold calculateComputedState; simpl.
  split; f_equal; lia.
Qed.

(** X7.  On a running timer whose duration is at least a minute, adding
    [minutes] and later removing the same [minutes] restores the end time and
    the duration, provided at least one second remains when the time is
    removed. *)
Theorem addTime_removeTime_round_trip (now1 now2 minutes e : Z) (state : AppState) :
  isRunning (timer state) = true ->
  truthy (startTime (timer state)) = true ->
  endTime (timer state) = Some e ->
  0 <= minutes -> 0 <= now2 -> now2 + 1000 <= e ->
  60000 <= durationMs (timer state) ->
  timer (removeTime now2 minutes (addTime now1 minutes state))
  = mkTimer (durationMs (timer state)) (startTime (timer state)) (Some e) true
            (pausedRemainingMs (timer state)) now2 false false.
Proof.
  intros Hrun Hst He Hm Hnow Hfar Hd.
  assert (Hnz : e <> 0) by lia.
  pose proof (addTime_running_exact now1 minutes e state Hrun Hst He Hnz) as Hadd.
  rewrite (removeTime_running_exact now2 minutes (e + minutes * 60000)
             (addTime now1 minutes state));
    rewrite ?Hadd; simpl; try reflexivity; try assumption; try lia.
  f_equal; try lia. f_equal. lia.
Qed.

(** X8.  On a paused timer (no start time) adding [minutes] and removing them
    again leaves the larger of 60000 and the stored remainder: the remainder
    comes back only if it was at least a minute. *)
Theorem paused_addTime_removeTime_floor (now1 now2 minutes p : Z) (state : AppState) :
  isRunning (timer state) = false ->
  isComplete (timer state) = false ->
  startTime (timer state) = None ->
  pausedRemainingMs (timer state) = Some p ->
  let back := timer (removeTime now2 minutes (addTime now1 minutes state)) in
  pausedRemainingMs back = Some (Z.max 60000 p)
  /\ (60000 <= p -> pausedRemainingMs back = Some p)
  /\ isPaused back = true.
Proof.
  intros Hrun Hc Hst Hp back. subst back.
  unfold removeTime, addTime; simpl. rewrite Hrun, Hc, Hst, Hp. simpl.
  split; [f_equal; lia|]. split; [intro; f_equal; lia | reflexivity].
Qed.

(** ** Pausing and resetting *)

(** X9.  [pauseTimer] on a timer that is not running stores the full
    [durationMs] as the paused remainder and marks the timer paused; a second
    pause therefore replaces the remainder captured by the first. *)
Theorem pauseTimer_not_running_stores_duration (now1 now2 : Z) (state : AppState) :
  (isRunning (timer state) = false ->
   pausedRemainingMs (timer (pauseTimer now1 state)) = Some (durationMs (timer state))
   /\ isPaused (timer (pauseTimer now1 state)) = true)
  /\ pausedRemainingMs (timer (pauseTimer now2 (pauseTimer now1 state)))
     = Some (durationMs (timer state)).
Proof.
  split.
  - intro Hrun. unfold pauseTimer; simpl. rewrite Hrun. simpl.
    destruct (endTime (timer state)); split; reflexivity.
  - reflexivity.
Qed.

(** X10.  After [resetTimer] the next [startTimer] runs the full reset
    duration whatever the timer was before (running, paused with a remainder,
    or complete): the end time is [now] plus [minutes * 60000], and the
    result does not depend on the previous timer at all. *)
Theorem reset_then_start_runs_full (now1 now2 minutes : Z) (state : AppState) :
  timer (startTimer now2 (resetTimer now1 (Some minutes) state))
  = mkTimer (minutes * 60000) (Some now2) (Some (now2 + minutes * 60000)) true
            None now2 false false.
Proof.
  unfold startTimer, resetTimer, calculateComputedState; simpl.
  f_equal; try lia. f_equal. lia.
Qed.

(** * Further properties of the display *)

Lemma remainingSeconds_zero (ms : Z) : remainingSeconds ms = 0 <-> ms <= 0.
Proof.
  unfold remainingSeconds. destruct (Z.leb_spec ms 0) as [Hle|Hgt].
  - split; [intros _; exact Hle | reflexivity].
  - split; [lia | lia].
Qed.

Lemma remainingSeconds_monotone (a b : Z) :
  a <= b -> remainingSeconds a <= remainingSeconds b.
Proof.
  intro Hab. unfold remainingSeconds.
  destruct (Z.leb_spec a 0) as [Ha|Ha]; destruct (Z.leb_spec b 0) as [Hb|Hb];
    try lia.
  rewrite !Qceiling_thousandth.
  assert (Hdiv : (- b) / 1000 <= (- a) / 1000) by (apply Z.div_le_mono; lia).
  lia.
Qed.

(** X11.  The displayed seconds are 0 exactly when no time remains, they never
    grow when the remaining time shrinks, and they never overstate the
    remaining time by a full second. *)
Theorem remainingSeconds_countdown :
  (forall ms, remainingSeconds ms = 0 <-> ms <= 0)
  /\ (forall a b, a <= b -> remainingSeconds a <= remainingSeconds b)
  /\ (forall ms, 0 < ms ->
                 ms <= 1000 * remainingSeconds ms < ms + 1000).
Proof.
  split; [exact remainingSeconds_zero|].
  split; [exact remainingSeconds_monotone|].
  intros ms Hpos.
  destruct (remainingSeconds_positive ms Hpos) as [[Hup Hlow] _]. lia.
Qed.

Lemma remainingMs_nonneg_both (now : Z) (state : AppState) :
  nonneg_durations (timer state) ->
  0 <= remainingMs now state /\ 0 <= remainingMsComponent now state.
Proof.
  intros [Hd Hp]. unfold remainingMs, remainingMsComponent.
  split.
  - repeat match goal with |- context [if ?c then _ else _] => destruct c end;
      try lia.
    destruct (pausedRemainingMs (timer state)) as [p|]; simpl; [apply Hp; reflexivity | lia].
  - repeat match goal with |- context [if ?c then _ else _] => destruct c end;
      try lia.
    destruct (pausedRemainingMs (timer state)) as [p|]; simpl; [apply Hp; reflexivity | lia].
Qed.

(** X12.  In every state reached by actions whose durations are not negative,
    the remaining time shown by either timer component is not negative,
    whatever the clock reads: the countdown never goes below zero. *)
Theorem remainingMs_never_negative (now : Z) (state : AppState) :
  reachable_by nonneg_action state ->
  0 <= remainingMs now state /\ 0 <= remainingMsComponent now state.
Proof.
  intro Hreach. apply remainingMs_nonneg_both.
  apply reachable_nonneg_durations. exact Hreach.
Qed.

(** X13.  On every state reached by local actions alone, the two timer
    components compute the same remaining time: the one that recomputes
    completion from the stored clock and the one that reads the stored
    [isComplete] flag. *)
Theorem remainingMs_components_agree (now : Z) (state : AppState) :
  reachable_by local_action state ->
  remainingMs now state = remainingMsComponent now state.
Proof.
  intro Hreach.
  destruct (reachable_local_shape state Hreach) as [Hrunning Hpaused].
  pose proof (reachable_flags state (reachable_by_any _ _ Hreach)) as Hflags.
  assert (Hic : isComplete (timer state)
                = negb (isRunning (timer state)) && truthy (startTime (timer state))
                  && reached (currentTime (ui state)) (endTime (timer state)))
    by (rewrite Hflags at 1; reflexivity).
  unfold remainingMs, remainingMsComponent. rewrite Hic.
  destruct (isRunning (timer state)) eqn:Hrun; simpl.
  - destruct (Hrunning eq_refl) as (Hpr & _ & _). rewrite Hpr. simpl.
    destruct (truthy (endTime (timer state))); reflexivity.
  - destruct (defined (pausedRemainingMs (timer state))) eqn:Hd.
    + destruct (Hpaused eq_refl) as (_ & Hst & _). rewrite Hst. reflexivity.
    + destruct (truthy (startTime (timer state))); simpl; [|reflexivity].
      unfold reached. destruct (endTime (timer state)) as [e|]; simpl; [|reflexivity].
      destruct (Z.eqb_spec e 0) as [|Hnz]; simpl; [reflexivity|].
      destruct (Z.leb_spec e (currentTime (ui state))) as [Hle|Hgt].
      * replace (Z.max 0 (e - currentTime (ui state))) with 0 by lia. reflexivity.
      * destruct (Z.eqb_spec (Z.max 0 (e - currentTime (ui state))) 0); [lia | reflexivity].
Qed.

(** X14.  The buttons that remove time are enabled only when the action will
    not hit the floor: for a duration of whole minutes, an enabled "-5" button
    lowers [durationMs] by exactly 300000 and an enabled "-1" button by
    exactly 60000. *)
Theorem enabled_remove_buttons_are_exact (now k : Z) (state : AppState) :
  durationMs (timer state) = 60000 * k ->
  (removeFiveDisabled state = false ->
   durationMs (timer (removeTime now 5 state)) = durationMs (timer state) - 300000)
  /\ (removeOneDisabled state = false ->
      durationMs (timer (removeTime now 1 state)) = durationMs (timer state) - 60000).
Proof.
  intro Hk.
  assert (Htot : totalSeconds state = 60 * k).
  { unfold totalSeconds. rewrite Hk.
    replace (60000 * k) with (60 * k * 1000) by lia. apply Z.div_mul. lia. }
  assert (Hdur : forall m, durationMs (timer (removeTime now m state))
                           = Z.max 60000 (durationMs (timer state) - m * 60000)).
  { intro m. unfold removeTime; simpl.
    repeat match goal with |- context [if ?c then _ else _] => destruct c end;
      simpl; f_equal; lia. }
  unfold removeFiveDisabled, removeOneDisabled. rewrite Htot. split; intro Hen.
  - apply Z.leb_gt in Hen. rewrite Hdur. lia.
  - apply Z.leb_gt in Hen. rewrite Hdur. lia.
Qed.

(** ** Progress *)

Lemma progress_positive_total (p : positive) (remaining : Z) :
  progress (Z.pos p) remaining = Qmake ((Z.pos p - remaining) * 100) p.
Proof.
  unfold progress. change (0 <? Z.pos p) with true. cbv iota.
  remember (Z.pos p - remaining) as x.
  unfold Qdiv, Qinv, inject_Z. cbn [Qnum Qden]. unfold Qmult. cbn [Qnum Qden].
  rewrite Z.mul_1_r, Pos.mul_1_l, Pos.mul_1_r. reflexivity.
Qed.

(** X15.  The progress handed to the progress ring and to the favicon lies
    between 0 and 100 whenever the remaining seconds lie between 0 and the
    total seconds; it is 0 when the total is not positive, and it falls below
    0 as soon as the remaining seconds exceed the total. *)
Theorem progress_bounds (total remaining : Z) :
  (0 <= remaining <= total ->
   (0 <= progress total remaining)%Q /\ (progress total remaining <= 100)%Q)
  /\ (total <= 0 -> progress total remaining = inject_Z 0)
  /\ (0 < total < remaining -> (progress total remaining < 0)%Q).
Proof.
  split; [|split].
  - intros [Hr Ht]. destruct total as [|p|p].
    + unfold progress, Qle; simpl. split; lia.
    + rewrite progress_positive_total. unfold Qle. cbn [Qnum Qden]. split; lia.
    + lia.
  - intro Hle. unfold progress.
    destruct (Z.ltb_spec 0 total) as [Hpos|_]; [lia | reflexivity].
  - intros [Ht Hr]. destruct total as [|p|p]; try lia.
    rewrite progress_positive_total. unfold Qlt. cbn [Qnum Qden]. lia.
Qed.

(** ** [formatTime] *)

Lemma string_length_append (s t : string) :
  String.length (s ++ t) = (String.length s + String.length t)%nat.
Proof. induction s as [|c s IH]; simpl; [reflexivity | rewrite IH; reflexivity]. Qed.

Lemma append_cancel_suffix (s1 s2 t1 t2 : string) :
  (s1 ++ t1 = s2 ++ t2)%string -> String.length t1 = String.length t2 ->
  s1 = s2 /\ t1 = t2.
Proof.
  revert s2. induction s1 as [|c s1 IH]; intros [|c2 s2] Heq Hlen; simpl in *.
  - split; [reflexivity | exact Heq].
  - exfalso. rewrite Heq in Hlen. simpl in Hlen.
    rewrite string_length_append in Hlen. lia.
  - exfalso. rewrite <- Heq in Hlen. simpl in Hlen.
    rewrite string_length_append in Hlen. lia.
  - inversion Heq; subst. destruct (IH s2 H1 Hlen) as [Hs Ht].
    split; [f_equal; exact Hs | exact Ht].
Qed.

Lemma digitsValue_numberToString (n : Z) :
  0 <= n -> digitsValue (numberToString n) = Some n.
Proof.
  intro Hn. unfold digitsValue, numberToString.
  pose proof (DecimalZ.of_to n) as Hback.
  destruct (Z.to_int n) as [u|u] eqn:Hu.
  - simpl. rewrite NilEmpty.usu. simpl. f_equal. exact Hback.
  - exfalso. destruct n; simpl in Hu; try discriminate. lia.
Qed.

Lemma digitsValue_padStart2 (s : string) :
  digitsValue (padStart2 s) = digitsValue s.
Proof.
  unfold padStart2. destruct s as [|c [|c' s]]; try reflexivity.
  cbn [String.length]. unfold digitsValue.
  change (NilEmpty.uint_of_string (String "0"%char (String c EmptyString)))
    with (uint_of_char "0"%char (NilEmpty.uint_of_string (String c EmptyString))).
  destruct (NilEmpty.uint_of_string (String c EmptyString)); reflexivity.
Qed.

Lemma padStart2_length_ge (s : string) : (2 <= String.length (padStart2 s))%nat.
Proof.
  unfold padStart2. destruct s as [|c [|c' s]]; simpl; lia.
Qed.

Lemma padStart2_two_digits (k : nat) :
  (k < 100)%nat ->
  String.length (padStart2 (numberToString (Z.of_nat k))) = 2%nat.
Proof.
  intro Hk.
  assert (Hall : forallb
                   (fun k => Nat.eqb (String.length
                                        (padStart2 (numberToString (Z.of_nat k)))) 2)
                   (seq 0 100) = true) by (vm_compute; reflexivity).
  rewrite forallb_forall in Hall.
  apply Nat.eqb_eq, Hall, in_seq. lia.
Qed.

Lemma formatTime_parts (seconds : Z) :
  0 <= seconds ->
  let mm := padStart2 (numberToString (seconds / 60)) in
  let ss := padStart2 (numberToString (seconds mod 60)) in
  formatTime seconds = (mm ++ ":" ++ ss)%string
  /\ String.length ss = 2%nat
  /\ (2 <= String.length mm)%nat
  /\ digitsValue mm = Some (seconds / 60)
  /\ digitsValue ss = Some (seconds mod 60).
Proof.
  intros Hs mm ss. subst mm ss.
  pose proof (Z.mod_pos_bound seconds 60 ltac:(lia)) as Hmod.
  assert (Hdiv : 0 <= seconds / 60) by (apply Z.div_pos; lia).
  split.
  { unfold formatTime. rewrite Z.rem_mod_nonneg by lia. reflexivity. }
  split.
  { replace (seconds mod 60) with (Z.of_nat (Z.to_nat (seconds mod 60))) by lia.
    apply padStart2_two_digits. lia. }
  split; [apply padStart2_length_ge|].
  split; rewrite digitsValue_padStart2; apply digitsValue_numberToString; lia.
Qed.

(** X16.  For a number of seconds that is not negative, [formatTime] writes
    the minutes with at least two digits, a colon, and the seconds of the
    minute with exactly two digits; read back as decimal numbers the two
    parts are [seconds / 60] and [seconds mod 60]. *)
Theorem formatTime_minutes_seconds (seconds : Z) :
  0 <= seconds ->
  exists mm ss : string,
    formatTime seconds = (mm ++ ":" ++ ss)%string
    /\ String.length ss = 2%nat
    /\ (2 <= String.length mm)%nat
    /\ digitsValue mm = Some (seconds / 60)
    /\ digitsValue ss = Some (seconds mod 60).
Proof.
  intro Hs. eexists. eexists. exact (formatTime_parts seconds Hs).
Qed.

(** X17.  Two different numbers of seconds, neither negative, are never
    displayed as the same text. *)
Theorem formatTime_injective (a b : Z) :
  0 <= a -> 0 <= b -> formatTime a = formatTime b -> a = b.
Proof.
  intros Ha Hb Heq.
  destruct (formatTime_parts a Ha) as (Hfa & Hla & _ & Hma & Hsa).
  destruct (formatTime_parts b Hb) as (Hfb & Hlb & _ & Hmb & Hsb).
  rewrite Hfa, Hfb in Heq.
  apply append_cancel_suffix in Heq; [|simpl; rewrite Hla, Hlb; reflexivity].
  destruct Heq as [Hmm Hss]. inversion Hss as [Hss'].
  rewrite Hmm in Hma. rewrite Hss' in Hsa.
  assert (Hq : a / 60 = b / 60) by congruence.
  assert (Hr : a mod 60 = b mod 60) by congruence.
  rewrite (Z.div_mod a 60), (Z.div_mod b 60) by lia. rewrite Hq, Hr. reflexivity.
Qed.

(** * Further properties of the scheduler and the bridge *)

(** ** The delay of the next tick *)

(** X18.  The delay computed by [scheduleNextUpdate] is always between 0 and
    1000 ms; it is 0 exactly when the timer of the render is running with its
    end time reached, at least 100 otherwise, and 1000 when the timer is not
    running. *)
Theorem nextUpdateMs_range (timerProp : TimerState) (now : Z) :
  let delay := nextUpdateMs timerProp now in
  0 <= delay <= 1000
  /\ (delay = 0 <-> isRunning timerProp && reached now (endTime timerProp) = true)
  /\ (delay <> 0 -> 100 <= delay)
  /\ (isRunning timerProp = false -> delay = 1000).
Proof.
  unfold nextUpdateMs, reached.
  destruct (endTime timerProp) as [e|]; destruct (isRunning timerProp); simpl;
    try (repeat split; try lia; try discriminate; intros; lia).
  destruct (Z.eqb_spec e 0) as [He|He]; simpl;
    [repeat split; try lia; try discriminate|].
  destruct (Z.ltb_spec 0 (Z.max 0 (e - now))) as [Hpos|Hnp].
  - pose proof (Qceiling_thousandth_is_ceiling (Z.max 0 (e - now))) as [Hup Hlow].
    destruct (Z.leb_spec e now) as [Hle|Hgt]; [lia|].
    repeat split; try lia; try discriminate.
  - destruct (Z.leb_spec e now) as [Hle|Hgt]; [|lia].
    repeat split; try lia; try reflexivity; discriminate.
Qed.

(** X19.  While the timer runs with time remaining, the tick scheduled by
    [scheduleNextUpdate] always finds fewer seconds on the display than the
    current one; and unless the delay is the 100 ms minimum it is exact: at no
    earlier instant would the displayed seconds have changed. *)
Theorem nextUpdateMs_lands_on_second (timerProp : TimerState) (now e : Z) :
  isRunning timerProp = true ->
  endTime timerProp = Some e -> e <> 0 -> now < e ->
  let delay := nextUpdateMs timerProp now in
  remainingSeconds (e - (now + delay)) < remainingSeconds (e - now)
  /\ (forall d, 0 <= d < delay ->
                remainingSeconds (e - (now + d)) = remainingSeconds (e - now)
                \/ delay = 100).
Proof.
  intros Hrun He Hnz Hlt delay. subst delay.
  unfold nextUpdateMs. rewrite He, Hrun.
  destruct (Z.eqb_spec e 0) as [|_]; [contradiction|]. simpl.
  replace (Z.max 0 (e - now)) with (e - now) by lia.
  destruct (Z.ltb_spec 0 (e - now)) as [Hpos|]; [|lia].
  pose proof (Qceiling_thousandth_is_ceiling (e - now)) as [Hup Hlow].
  destruct (remainingSeconds_positive (e - now) Hpos) as [[Hup0 Hlow0] Hone].
  assert (Hc : Qceiling (Qmake (e - now) 1000) = remainingSeconds (e - now)) by lia.
  rewrite Hc in *. clear Hc Hup Hlow.
  set (c := remainingSeconds (e - now)) in *.
  set (ms := e - now - (c - 1) * 1000).
  split.
  - destruct (Z.le_gt_cases (e - (now + Z.max 100 ms)) 0) as [Hdone|Hleft].
    + apply remainingSeconds_zero in Hdone. rewrite Hdone. lia.
    + destruct (remainingSeconds_positive _ Hleft) as [[Hup1 Hlow1] _].
      subst ms. lia.
  - intros d [Hd0 Hd]. destruct (Z.eq_dec (Z.max 100 ms) 100) as [H100|Hn100];
      [right; exact H100 | left].
    assert (Hleft : 0 < e - (now + d)) by (subst ms; lia).
    destruct (remainingSeconds_positive _ Hleft) as [[Hup1 Hlow1] _].
    subst ms. lia.
Qed.

(** ** Publishing *)

(** X20.  A timer published by one client and synced by another arrives with
    every raw field intact, the [null] that stands for a missing paused
    remainder included: the receiver stores the sender's raw fields with the
    flags computed at its own clock.  Conversely, publishing a synced
    snapshot gives the snapshot back, unless its paused remainder was
    missing. *)
Theorem publish_sync_round_trip (t : TimerState) (snap : Snapshot) (receiver : AppState) :
  timer (syncTimerState (stateToPublish t) receiver)
  = calculateComputedState t (currentTime (ui receiver))
  /\ (msg_pausedRemainingMs snap <> WUndefined ->
      stateToPublish (timer (syncTimerState snap receiver)) = snap).
Proof.
  split.
  - unfold syncTimerState, stateToPublish, calculateComputedState; simpl.
    destruct (pausedRemainingMs t); reflexivity.
  - intro Hdef. destruct snap as [d st en run pr lu]; simpl in *.
    unfold stateToPublish; simpl. destruct pr; simpl; try reflexivity.
    contradiction.
Qed.

(** X21.  The publish effect hands a message to the channel only when the
    client handle is set, the store is connected, the initial history load has
    finished and the remote-origin flag is clear; the message is then the raw
    state of the store, [lastUpdated] included. *)
Theorem publishEffect_gates (refs : BridgeRefs) (state : AppState) (m : Snapshot) :
  publishEffect refs state = Some m ->
  pubnubRef refs = true
  /\ isConnected (ui state) = true
  /\ isInitialized refs = true
  /\ hasLoadedHistory refs = true
  /\ lastUpdateFromPubNub (ui state) = false
  /\ stateChanged (lastPublishedState refs) (timer state) = true
  /\ m = stateToPublish (timer state).
Proof.
  unfold publishEffect.
  destruct (pubnubRef refs), (isConnected (ui state)), (isInitialized refs),
    (hasLoadedHistory refs); simpl; try discriminate.
  destruct (lastUpdateFromPubNub (ui state)); try discriminate.
  destruct (stateChanged (lastPublishedState refs) (timer state)); try discriminate.
  intro Heq. inversion Heq. repeat split; reflexivity.
Qed.

Lemma strictNeq_refl (v : option Z) : strictNeq v v = false.
Proof. destruct v; simpl; [rewrite Z.eqb_refl|]; reflexivity. Qed.

(** X22.  The comparison with the last published state.  Once the bridge has
    published the timer, the current bridge still finds the unchanged timer
    "changed" whenever the paused remainder is missing (it remembers [null]
    and compares it with [undefined]), so only a paused timer is recognised as
    already published; the first version of the bridge, which remembered the
    field as it was, recognises every timer it has published. *)
Theorem stateChanged_after_own_publish (refs : BridgeRefs) (t : TimerState) :
  stateChanged (lastPublishedState (publishResolved (stateToPublish t) refs)) t
  = negb (defined (pausedRemainingMs t))
  /\ stateChanged (lastPublishedState (publishResolved (stateToPublishV1 t) refs)) t
     = false.
Proof.
  unfold stateChanged, publishResolved, stateToPublish, stateToPublishV1; simpl.
  rewrite Z.eqb_refl, !strictNeq_refl, Bool.eqb_reflx. simpl.
  destruct (pausedRemainingMs t); simpl; [rewrite Z.eqb_refl|]; split; reflexivity.
Qed.

(** ** Events that leave the timer alone *)

(** X23.  Status events only ever set the connection flag; a message on
    another channel and an empty history leave the whole store unchanged. *)
Theorem bridge_events_keep_timer :
  (forall category state,
      timer (statusListener category state) = timer state
      /\ currentTime (ui (statusListener category state)) = currentTime (ui state))
  /\ (forall ch timerProp event state,
         channel event <> ch -> messageListener ch timerProp event state = state)
  /\ (forall state, historyLoaded [] state = state).
Proof.
  split; [|split].
  - intros category state. unfold statusListener.
    repeat match goal with |- context [if ?c then _ else _] => destruct c end;
      split; reflexivity.
  - intros ch timerProp event state Hne. unfold messageListener.
    destruct (String.eqb_spec (channel event) ch) as [Heq|_];
      [contradiction | reflexivity].
  - reflexivity.
Qed.

(** * Properties of the configuration *)

Lemma orElse_not_empty (v : option string) (fallback : string) :
  fallback <> EmptyString -> orElse v fallback <> EmptyString.
Proof.
  intro Hf. unfold orElse. destruct v as [s|]; [|exact Hf].
  destruct (String.eqb_spec s EmptyString) as [|Hne]; assumption.
Qed.

Lemma orElse_truthy (v : option string) (fallback : string) :
  orElse v fallback = (if envTruthy v then match v with Some s => s | None => fallback end
                       else fallback).
Proof.
  unfold orElse, envTruthy. destruct v as [s|]; [|reflexivity].
  destruct (String.eqb s EmptyString); reflexivity.
Qed.

(** X24.  The configuration is valid exactly when both keys are set to
    non-empty values, and exactly then it is not reported as using the demo
    keys; the variables reported missing are required variables that are
    unset; whenever the demo warning is raised at least one key really is
    ["demo"]; no key and no channel name is ever empty. *)
Theorem validatePubNubConfig_consistent (env : string -> option string) :
  let v := validatePubNubConfig env in
  isValid v = negb (usingDemo v)
  /\ (isValid v = true <->
      envTruthy (env "VITE_PUBNUB_PUBLISH_KEY"%string) = true
      /\ envTruthy (env "VITE_PUBNUB_SUBSCRIBE_KEY"%string) = true)
  /\ (forall name, In name (missing v) ->
                   In name requiredVars /\ envTruthy (env name) = false)
  /\ (usingDemo v = true ->
      publishKey env = "demo"%string \/ subscribeKey env = "demo"%string)
  /\ publishKey env <> EmptyString
  /\ subscribeKey env <> EmptyString
  /\ TIMER_CHANNEL (env "VITE_PUBNUB_CHANNEL"%string) <> EmptyString.
Proof.
  unfold validatePubNubConfig, requiredVars, publishKey, subscribeKey; simpl.
  rewrite !orElse_truthy.
  split; [|split; [|split; [|split; [|split; [|split]]]]].
  - destruct (envTruthy (env "VITE_PUBNUB_PUBLISH_KEY"%string)),
      (envTruthy (env "VITE_PUBNUB_SUBSCRIBE_KEY"%string)); reflexivity.
  - destruct (envTruthy (env "VITE_PUBNUB_PUBLISH_KEY"%string)),
      (envTruthy (env "VITE_PUBNUB_SUBSCRIBE_KEY"%string)); simpl;
      split; try discriminate; try (intros [? ?]; discriminate); auto.
  - intros name Hin.
    change (In name (filter (fun varName => negb (envTruthy (env varName))) requiredVars))
      in Hin.
    apply filter_In in Hin. destruct Hin as [Hreq Hneg].
    split; [exact Hreq|]. apply negb_true_iff. exact Hneg.
  - destruct (envTruthy (env "VITE_PUBNUB_PUBLISH_KEY"%string)),
      (envTruthy (env "VITE_PUBNUB_SUBSCRIBE_KEY"%string)); simpl;
      try discriminate; intros _; auto.
  - rewrite <- orElse_truthy. apply orElse_not_empty. discriminate.
  - rewrite <- orElse_truthy. apply orElse_not_empty. discriminate.
  - change (orElse (env "VITE_PUBNUB_CHANNEL"%string) "kid-timer-sync" <> EmptyString).
    apply orElse_not_empty. discriminate.
Qed.

(** * The store against the handlers it replaced *)

(** X25.  [startTimer] publishes what the earlier [handleStart] published:
    for hooks and a store that hold the same raw fields, the message of the
    handler is the raw state of the store after the action, resumed from the
    paused remainder or started from the full duration alike. *)
Theorem startTimer_matches_handleStart
        (now version : Z) (paused : option Z) (h : Legacy.HookState) :
  snd (LegacyTimer.handleStart now paused h)
  = stateToPublishV1 (timer (startTimer now (LegacyTimer.toStore version paused h))).
Proof.
  unfold LegacyTimer.handleStart, startTimer, stateToPublishV1; simpl.
  destruct paused as [p|]; simpl; [|rewrite andb_false_r; reflexivity].
  rewrite andb_true_r. destruct (Legacy.isRunning h); reflexivity.
Qed.

(** X26.  [pauseTimer] publishes what the earlier [handlePause] published for
    a running timer, provided the handler's render read the clock at the
    instant of the click: the handler stores the remaining time of its last
    render, the action the remaining time at the click. *)
Theorem pauseTimer_matches_handlePause
        (now version : Z) (paused : option Z) (h : Legacy.HookState) :
  Legacy.isRunning h = true ->
  snd (LegacyTimer.handlePause now now paused h)
  = stateToPublishV1 (timer (pauseTimer now (LegacyTimer.toStore version paused h))).
Proof.
  intro Hrun.
  unfold LegacyTimer.handlePause, LegacyTimer.remainingMs, pauseTimer,
    stateToPublishV1; simpl.
  rewrite Hrun. simpl.
  destruct (Legacy.endTime h) as [e|]; simpl; [|reflexivity].
  destruct (e =? 0); reflexivity.
Qed.

(** X27.  [addTime] publishes what the earlier handler published, as long as
    no paused remainder is held while running and the paused remainder is not
    0 (the handler tests the remainder for truthiness and drops a remainder
    of 0, the action keeps it). *)
Theorem addTime_matches_legacy
        (now version minutes : Z) (paused : option Z) (h : Legacy.HookState) :
  (Legacy.isRunning h = true -> paused = None) ->
  paused <> Some 0 ->
  snd (LegacyTimer.addTime now minutes paused h)
  = stateToPublishV1 (timer (addTime now minutes (LegacyTimer.toStore version paused h))).
Proof.
  intros Hrun Hnz.
  unfold LegacyTimer.addTime, addTime, stateToPublishV1; simpl.
  destruct (Legacy.isRunning h) eqn:Hr; simpl.
  - rewrite (Hrun eq_refl). simpl.
    destruct (truthy (Legacy.startTime h)) eqn:Hs; simpl.
    + destruct (Legacy.endTime h) as [e|] eqn:He; simpl.
      * destruct (e =? 0) eqn:Hz; simpl.
        -- unfold Legacy.isComplete. rewrite Hr. reflexivity.
        -- reflexivity.
      * unfold Legacy.isComplete. rewrite Hr. reflexivity.
    + unfold Legacy.isComplete. rewrite Hr. reflexivity.
  - destruct (Legacy.isComplete h); simpl; [reflexivity|].
    destruct paused as [p|]; simpl; [|reflexivity].
    destruct (Z.eqb_spec p 0) as [Hp|_]; [subst; contradiction | reflexivity].
Qed.

(** X28.  [removeTime] publishes what the earlier handler published under the
    same conditions, when in addition the handler's stored clock equals the
    clock of the click: the handler keeps one second from its stored clock,
    which the interval refreshes once a second, the action from the clock it
    reads itself. *)
Theorem removeTime_matches_legacy
        (now version minutes : Z) (paused : option Z) (h : Legacy.HookState) :
  (Legacy.isRunning h = true -> paused = None) ->
  paused <> Some 0 ->
  Legacy.currentTime h = now ->
  snd (LegacyTimer.removeTime now minutes paused h)
  = stateToPublishV1 (timer (removeTime now minutes (LegacyTimer.toStore version paused h))).
Proof.
  intros Hrun Hnz Hclock.
  unfold LegacyTimer.removeTime, removeTime, stateToPublishV1; simpl.
  rewrite Hclock.
  destruct (Legacy.isRunning h) eqn:Hr; simpl.
  - rewrite (Hrun eq_refl). simpl.
    destruct (truthy (Legacy.startTime h)) eqn:Hs; simpl.
    + destruct (Legacy.endTime h) as [e|] eqn:He; simpl.
      * destruct (e =? 0) eqn:Hz; simpl.
        -- unfold Legacy.isComplete. rewrite Hr. reflexivity.
        -- reflexivity.
      * unfold Legacy.isComplete. rewrite Hr. reflexivity.
    + unfold Legacy.isComplete. rewrite Hr. reflexivity.
  - destruct (Legacy.isComplete h); simpl; [reflexivity|].
    destruct paused as [p|]; simpl; [|reflexivity].
    destruct (Z.eqb_spec p 0) as [Hp|_]; [subst; contradiction | reflexivity].
Qed.

(** * The further theorems at concrete inputs *)

Lemma reachable_flags_in_sync_witness :
  reachable completedTimer
  /\ isComplete (timer completedTimer) = true
  /\ isPaused (timer completedTimer) = false.
Proof.
  assert (Hr : reachable completedTimer) by (unfold completedTimer; reach_concrete).
  destruct (reachable_flags_in_sync completedTimer Hr) as [Hc Hp].
  split; [exact Hr|]. split; [exact Hc | exact Hp].
Defined.

Lemma local_modes_three_way_witness :
  reachable_by local_action pausedNearEnd
  /\ isPaused (timer pausedNearEnd) && isComplete (timer pausedNearEnd) = false.
Proof.
  assert (Hr : reachable_by local_action pausedNearEnd)
    by (unfold pausedNearEnd; reach_concrete).
  destruct (local_modes_three_way pausedNearEnd Hr) as (_ & Hpc & _ & _).
  split; [exact Hr | exact Hpc].
Defined.

Lemma listener_compares_with_mount_timer_witness :
  let edited := dispatch (StartTimer 5000) connectedClient in
  let received :=
    registeredListener theChannel connectedClient
                       (mkEvent theChannel remoteSnapshot) edited in
  lastUpdated (timer connectedClient) < msg_lastUpdated remoteSnapshot
  /\ msg_lastUpdated remoteSnapshot < 5000
  /\ lastUpdated (timer edited) = 5000
  /\ received = syncTimerState remoteSnapshot edited
  /\ lastUpdated (timer received) = 2000.
Proof.
  intros edited received.
  assert (Hlt : lastUpdated (timer connectedClient) < msg_lastUpdated remoteSnapshot)
    by reflexivity.
  destruct (listener_compares_with_mount_timer theChannel connectedClient
              (StartTimer 5000) 5000 (mkEvent theChannel remoteSnapshot)
              connectedClient eq_refl eq_refl Hlt) as (Hlu & Happlied & Hstamp).
  split; [exact Hlt|]. split; [reflexivity|]. split; [exact Hlu|].
  split; [exact Happlied | exact Hstamp].
Defined.

Lemma adjust_running_timer_witness :
  endTime (timer (addTime 61000 5 runningNearEnd)) = Some (301000 + 5 * 60000)
  /\ durationMs (timer (addTime 61000 5 runningNearEnd)) = 300000 + 5 * 60000
  /\ isRunning (timer (addTime 61000 5 runningNearEnd)) = true.
Proof.
  assert (Hnz : 301000 <> 0) by discriminate.
  destruct (adjust_running_timer 61000 5 301000 runningNearEnd
              eq_refl eq_refl eq_refl Hnz) as [Hadd _].
  rewrite Hadd. repeat split; reflexivity.
Defined.

Lemma adjust_after_completion_clears_witness :
  isComplete (timer completedTimer) = true
  /\ timer (addTime 400000 1 completedTimer)
     = mkTimer (300000 + 1 * 60000) None None false None 400000 false false.
Proof.
  destruct (adjust_after_completion_clears 400000 1 completedTimer eq_refl eq_refl)
    as [Hadd _].
  split; [reflexivity | exact Hadd].
Defined.

Lemma addTime_removeTime_round_trip_witness :
  timer (removeTime 3000 5 (addTime 2000 5 runningNearEnd))
  = mkTimer 300000 (Some 1000) (Some 301000) true None 3000 false false.
Proof.
  assert (H1 : 0 <= 5) by (vm_compute; discriminate).
  assert (H2 : 0 <= 3000) by (vm_compute; discriminate).
  assert (H3 : 3000 + 1000 <= 301000) by (vm_compute; discriminate).
  assert (H4 : 60000 <= durationMs (timer runningNearEnd)) by (vm_compute; discriminate).
  exact (addTime_removeTime_round_trip 2000 3000 5 301000 runningNearEnd
           eq_refl eq_refl eq_refl H1 H2 H3 H4).
Defined.

Lemma paused_addTime_removeTime_floor_witness :
  pausedRemainingMs (timer pausedNearEnd) = Some 1000
  /\ pausedRemainingMs (timer (removeTime 300002 5 (addTime 300001 5 pausedNearEnd)))
     = Some (Z.max 60000 1000).
Proof.
  destruct (paused_addTime_removeTime_floor 300001 300002 5 1000 pausedNearEnd
              eq_refl eq_refl eq_refl eq_refl) as [Hfloor _].
  split; [reflexivity | exact Hfloor].
Defined.

Lemma pauseTimer_not_running_stores_duration_witness :
  pausedRemainingMs (timer (pauseTimer 300500 pausedNearEnd)) = Some 300000
  /\ isPaused (timer (pauseTimer 300500 pausedNearEnd)) = true.
Proof.
  destruct (pauseTimer_not_running_stores_duration 300500 300600 pausedNearEnd)
    as [Hstored _].
  exact (Hstored eq_refl).
Defined.

Lemma remainingSeconds_countdown_witness :
  remainingSeconds 999 <= remainingSeconds 1000
  /\ 1500 <= 1000 * remainingSeconds 1500 < 1500 + 1000.
Proof.
  destruct remainingSeconds_countdown as (_ & Hmono & Hclose).
  assert (Hle : 999 <= 1000) by (vm_compute; discriminate).
  assert (Hpos : 0 < 1500) by reflexivity.
  split; [exact (Hmono 999 1000 Hle) | exact (Hclose 1500 Hpos)].
Defined.

Lemma remainingMs_never_negative_witness :
  reachable_by nonneg_action pausedNearEnd
  /\ 0 <= remainingMs 400000 pausedNearEnd
  /\ 0 <= remainingMsComponent 400000 pausedNearEnd.
Proof.
  assert (Hr : reachable_by nonneg_action pausedNearEnd)
    by (unfold pausedNearEnd; reach_concrete).
  split; [exact Hr | exact (remainingMs_never_negative 400000 pausedNearEnd Hr)].
Defined.

Lemma remainingMs_components_agree_witness :
  reachable_by local_action completedTimer
  /\ remainingMs 301500 completedTimer = remainingMsComponent 301500 completedTimer.
Proof.
  assert (Hr : reachable_by local_action completedTimer)
    by (unfold completedTimer; reach_concrete).
  split; [exact Hr | exact (remainingMs_components_agree 301500 completedTimer Hr)].
Defined.

Lemma enabled_remove_buttons_are_exact_witness :
  removeFiveDisabled tenMinutes = false
  /\ durationMs (timer (removeTime 1000 5 tenMinutes))
     = durationMs (timer tenMinutes) - 300000.
Proof.
  destruct (enabled_remove_buttons_are_exact 1000 10 tenMinutes eq_refl) as [Hfive _].
  split; [reflexivity | exact (Hfive eq_refl)].
Defined.

Lemma progress_bounds_witness :
  (0 <= progress 300 120)%Q /\ (progress 300 120 <= 100)%Q.
Proof.
  destruct (progress_bounds 300 120) as [Hin _].
  apply Hin. split; vm_compute; discriminate.
Defined.

Lemma formatTime_minutes_seconds_witness :
  exists mm ss : string,
    formatTime 75 = (mm ++ ":" ++ ss)%string
    /\ String.length ss = 2%nat
    /\ (2 <= String.length mm)%nat
    /\ digitsValue mm = Some (75 / 60)
    /\ digitsValue ss = Some (75 mod 60).
Proof.
  apply (formatTime_minutes_seconds 75). vm_compute; discriminate.
Defined.

Lemma formatTime_injective_witness :
  formatTime 75 = formatTime (60 + 15) /\ 75 = 60 + 15.
Proof.
  assert (H1 : 0 <= 75) by (vm_compute; discriminate).
  assert (H2 : 0 <= 60 + 15) by (vm_compute; discriminate).
  assert (Heq : formatTime 75 = formatTime (60 + 15)) by reflexivity.
  split; [exact Heq | exact (formatTime_injective 75 (60 + 15) H1 H2 Heq)].
Defined.

Lemma nextUpdateMs_range_witness :
  nextUpdateMs (timer runningNearEnd) 2500 <> 0
  /\ 100 <= nextUpdateMs (timer runningNearEnd) 2500.
Proof.
  assert (Hnz : nextUpdateMs (timer runningNearEnd) 2500 <> 0)
    by (vm_compute; discriminate).
  destruct (nextUpdateMs_range (timer runningNearEnd) 2500) as (_ & _ & Hmin & _).
  split; [exact Hnz | exact (Hmin Hnz)].
Defined.

Lemma nextUpdateMs_lands_on_second_witness :
  nextUpdateMs (timer runningNearEnd) 2500 = 500
  /\ remainingSeconds (301000 - (2500 + nextUpdateMs (timer runningNearEnd) 2500))
     < remainingSeconds (301000 - 2500).
Proof.
  assert (Hnz : 301000 <> 0) by discriminate.
  assert (Hlt : 2500 < 301000) by reflexivity.
  destruct (nextUpdateMs_lands_on_second (timer runningNearEnd) 2500 301000
              eq_refl eq_refl Hnz Hlt) as [Hless _].
  split; [reflexivity | exact Hless].
Defined.

Lemma publish_sync_round_trip_witness :
  msg_pausedRemainingMs remoteSnapshot <> WUndefined
  /\ stateToPublish (timer (syncTimerState remoteSnapshot connectedClient))
     = remoteSnapshot.
Proof.
  assert (Hdef : msg_pausedRemainingMs remoteSnapshot <> WUndefined) by discriminate.
  destruct (publish_sync_round_trip (timer connectedClient) remoteSnapshot connectedClient)
    as [_ Hback].
  split; [exact Hdef | exact (Hback Hdef)].
Defined.

Lemma publishEffect_gates_witness :
  publishEffect readyRefs (syncTimerState remoteSnapshot connectedClient)
  = Some remoteSnapshot
  /\ isConnected (ui (syncTimerState remoteSnapshot connectedClient)) = true
  /\ hasLoadedHistory readyRefs = true.
Proof.
  assert (Hpub : publishEffect readyRefs (syncTimerState remoteSnapshot connectedClient)
                 = Some remoteSnapshot) by reflexivity.
  destruct (publishEffect_gates readyRefs (syncTimerState remoteSnapshot connectedClient)
              remoteSnapshot Hpub) as (_ & Hconn & _ & Hhist & _).
  split; [exact Hpub|]. split; [exact Hconn | exact Hhist].
Defined.

Lemma bridge_events_keep_timer_witness :
  messageListener theChannel (timer connectedClient)
                  (mkEvent "another-channel" remoteSnapshot) connectedClient
  = connectedClient.
Proof.
  destruct bridge_events_keep_timer as (_ & Hother & _).
  apply Hother. unfold theChannel, TIMER_CHANNEL. simpl. discriminate.
Defined.

Lemma validatePubNubConfig_consistent_witness :
  isValid (validatePubNubConfig customEnv) = true
  /\ (publishKey emptyEnv = "demo"%string \/ subscribeKey emptyEnv = "demo"%string).
Proof.
  destruct (validatePubNubConfig_consistent customEnv) as (_ & Hvalid & _).
  destruct (validatePubNubConfig_consistent emptyEnv) as (_ & _ & _ & Hdemo & _).
  split.
  - apply Hvalid. split; reflexivity.
  - apply Hdemo. reflexivity.
Defined.

Lemma pauseTimer_matches_handlePause_witness :
  snd (LegacyTimer.handlePause 2000 2000 None runningHooks)
  = stateToPublishV1 (timer (pauseTimer 2000 (LegacyTimer.toStore 1000 None runningHooks))).
Proof.
  exact (pauseTimer_matches_handlePause 2000 1000 None runningHooks eq_refl).
Defined.

Lemma addTime_matches_legacy_witness :
  snd (LegacyTimer.addTime 2000 5 None runningHooks)
  = stateToPublishV1 (timer (addTime 2000 5 (LegacyTimer.toStore 1000 None runningHooks))).
Proof.
  assert (Hnz : @None Z <> Some 0) by discriminate.
  exact (addTime_matches_legacy 2000 1000 5 None runningHooks (fun _ => eq_refl) Hnz).
Defined.

Lemma removeTime_matches_legacy_witness :
  snd (LegacyTimer.removeTime 2000 5 None runningHooks)
  = stateToPublishV1 (timer (removeTime 2000 5 (LegacyTimer.toStore 1000 None runningHooks))).
Proof.
  assert (Hnz : @None Z <> Some 0) by discriminate.
  exact (removeTime_matches_legacy 2000 1000 5 None runningHooks
           (fun _ => eq_refl) Hnz eq_refl).
Defined.
